(** * Verification of [create_product] (Part1_Correct_Implementation.py)

    The development embeds the request handler of the [POST /api/products]
    endpoint: the Python values it receives, the string and decimal
    operations it calls, the session of the persistence layer it drives,
    and the handler itself as a computation in a state-and-exception monad.

    Conventions.
    - The handler is run on the value [request.get_json()] returned.
    - A Python [str] is a [string]; the text operations ([strip], [upper],
      [lower]) and the reading of a [Decimal] are given for ASCII text.
      Text with a character above 127 is outside the model, and the
      theorems that state what these operations answer for a payload
      assume ASCII text.
    - [Decimal] has the exponent bounds of the C implementation.
    - A Python [int] is a [Z]; a JSON number with a fraction or an exponent
      is a [pyfloat], kept as the shortest decimal that reads back to it
      (the digits [repr] prints).
    - Only exceptions deriving from [Exception] are modelled.
    - The persistence layer is the handler's collaborator: its calls
      [get], [begin], [flush] and [commit] may fail as the [Backend] of
      the run says; [add], [rollback], the reading of an attribute of a
      mapped object, [jsonify] and [logging.error] do not fail. *)

From Stdlib Require Import ZArith NArith List String Ascii Bool Lia.
From Stdlib Require Import DecimalString.
From Stdlib Require DecimalPos DecimalN.
Import ListNotations.
Set Warnings "-register-all".
Open Scope string_scope.
Open Scope Z_scope.

(** ** Text *)

Module Text.

Definition code (c : ascii) : N := N_of_ascii c.

(** Characters [str.strip()] removes: TAB, LF, VT, FF, CR, FS, GS, RS, US
    and the space. *)
Definition is_space (c : ascii) : bool :=
  let n := code c in
  ((9 <=? n) && (n <=? 13) || (28 <=? n) && (n <=? 32))%N.

Definition is_digit (c : ascii) : bool :=
  let n := code c in ((48 <=? n) && (n <=? 57))%N.

Definition digit_val (c : ascii) : N := (code c - 48)%N.

Definition upper_char (c : ascii) : ascii :=
  let n := code c in
  if ((97 <=? n) && (n <=? 122))%N then ascii_of_N (n - 32) else c.

Definition lower_char (c : ascii) : ascii :=
  let n := code c in
  if ((65 <=? n) && (n <=? 90))%N then ascii_of_N (n + 32) else c.

Fixpoint map_string (f : ascii -> ascii) (s : string) : string :=
  match s with
  | EmptyString => EmptyString
  | String c r => String (f c) (map_string f r)
  end.

(** [str.upper()] and [str.lower()] on ASCII text. A text with a
    character above 127 is outside the model: the theorems that state the
    result of these functions for a payload assume ASCII text. *)
Definition upper : string -> string := map_string upper_char.
Definition lower : string -> string := map_string lower_char.

Fixpoint lstrip (s : string) : string :=
  match s with
  | EmptyString => EmptyString
  | String c r => if is_space c then lstrip r else s
  end.

Fixpoint rstrip (s : string) : string :=
  match s with
  | EmptyString => EmptyString
  | String c r =>
      match rstrip r with
      | EmptyString => if is_space c then EmptyString else String c EmptyString
      | r' => String c r'
      end
  end.

(** [str.strip()] on ASCII text (see [upper]). *)
Definition strip (s : string) : string := rstrip (lstrip s).

(** [s.replace(c, "")] for a one-character [c]. *)
Fixpoint remove_char (x : ascii) (s : string) : string :=
  match s with
  | EmptyString => EmptyString
  | String c r => if Ascii.eqb c x then remove_char x r else String c (remove_char x r)
  end.

Fixpoint starts_with (p s : string) : bool :=
  match p, s with
  | EmptyString, _ => true
  | String a p', String b s' => Ascii.eqb a b && starts_with p' s'
  | String _ _, EmptyString => false
  end.

(** [sub in s] on two strings. *)
Fixpoint contains (sub s : string) : bool :=
  starts_with sub s ||
  match s with
  | EmptyString => false
  | String _ r => contains sub r
  end.

Fixpoint join (sep : string) (l : list string) : string :=
  match l with
  | [] => ""
  | [x] => x
  | x :: r => x ++ sep ++ join sep r
  end.

Fixpoint repeat_char (c : ascii) (n : nat) : string :=
  match n with
  | O => ""
  | S k => String c (repeat_char c k)
  end.

Fixpoint take (n : nat) (s : string) : string :=
  match n, s with
  | S k, String c r => String c (take k r)
  | _, _ => ""
  end.

Fixpoint drop (n : nat) (s : string) : string :=
  match n, s with
  | S k, String _ r => drop k r
  | _, _ => s
  end.

(** [str(z)] for an [int]. *)
Definition of_Z (z : Z) : string := NilZero.string_of_int (Z.to_int z).
Definition of_N (n : N) : string := NilZero.string_of_uint (N.to_uint n).

End Text.

(** ** Python values *)

(** A [float], by the decimal [repr] prints for it: [FNum neg d e] is the
    float that prints as [(-1)^neg * d * 10^e]. *)
Inductive pyfloat :=
| FNan
| FInf (neg : bool)
| FNum (neg : bool) (digits : N) (exp : Z).

(** What [request.get_json()] returns: [None], [bool], [int], [float],
    [str], [list] or [dict]; a [dict] by its items, its keys distinct. *)
Inductive json :=
| JNull
| JBool (b : bool)
| JInt (z : Z)
| JFloat (f : pyfloat)
| JStr (s : string)
| JArr (l : list json)
| JObj (items : list (string * json)).

Module Py.

Definition quote1 : ascii := Ascii.ascii_of_nat 39.
Definition quote2 : ascii := Ascii.ascii_of_nat 34.
Definition backslash : ascii := Ascii.ascii_of_nat 92.

Definition sign_prefix (neg : bool) : string := if neg then "-" else "".

Fixpoint rstrip_zeros (s : string) : string :=
  match s with
  | EmptyString => EmptyString
  | String c r =>
      match rstrip_zeros r with
      | EmptyString => if Ascii.eqb c "0" then EmptyString else String c EmptyString
      | r' => String c r'
      end
  end.

Definition two_digits (n : N) : string :=
  if (n <? 10)%N then "0" ++ Text.of_N n else Text.of_N n.

(** [repr] of a finite non-zero float from its digits and the position
    [decpt] of the decimal point: fixed notation when [-4 < decpt <= 16],
    scientific notation otherwise. *)
Definition float_digits_repr (digs : string) (decpt : Z) : string :=
  let n := Z.of_nat (String.length digs) in
  if (decpt <=? -4) || (16 <? decpt) then
    let e := decpt - 1 in
    Text.take 1 digs
    ++ (if 1 <? n then "." ++ Text.drop 1 digs else "")
    ++ "e" ++ (if e <? 0 then "-" else "+") ++ two_digits (Z.abs_N e)
  else if decpt <=? 0 then
    "0." ++ Text.repeat_char "0" (Z.to_nat (- decpt)) ++ digs
  else if n <=? decpt then
    digs ++ Text.repeat_char "0" (Z.to_nat (decpt - n)) ++ ".0"
  else
    Text.take (Z.to_nat decpt) digs ++ "." ++ Text.drop (Z.to_nat decpt) digs.

(** [repr(f)] (and [str(f)]) of a float. *)
Definition float_repr (f : pyfloat) : string :=
  match f with
  | FNan => "nan"
  | FInf neg => sign_prefix neg ++ "inf"
  | FNum neg d e =>
      if (d =? 0)%N then sign_prefix neg ++ "0.0"
      else
        let all := Text.of_N d in
        let digs := rstrip_zeros all in
        let e' := e + Z.of_nat (String.length all - String.length digs) in
        sign_prefix neg ++ float_digits_repr digs (Z.of_nat (String.length digs) + e')
  end.

Definition float_is_zero (f : pyfloat) : bool :=
  match f with
  | FNum _ d _ => (d =? 0)%N
  | _ => false
  end.

Definition hex_digit (n : N) : ascii :=
  if (n <? 10)%N then ascii_of_N (48 + n) else ascii_of_N (87 + n).

Definition escape_char (q c : ascii) : string :=
  let n := Text.code c in
  if Ascii.eqb c backslash then String backslash (String backslash "")
  else if Ascii.eqb c q then String backslash (String q "")
  else if (n =? 9)%N then String backslash "t"
  else if (n =? 10)%N then String backslash "n"
  else if (n =? 13)%N then String backslash "r"
  else if ((n <? 32) || (n =? 127))%N then
    String backslash (String "x" (String (hex_digit (n / 16)) (String (hex_digit (n mod 16)) "")))
  else String c "".

Fixpoint escape (q : ascii) (s : string) : string :=
  match s with
  | EmptyString => EmptyString
  | String c r => escape_char q c ++ escape q r
  end.

Fixpoint has_char (x : ascii) (s : string) : bool :=
  match s with
  | EmptyString => false
  | String c r => Ascii.eqb c x || has_char x r
  end.

(** [repr(s)] of a [str]: single quotes, unless [s] holds a single quote
    and no double quote. *)
Definition str_repr (s : string) : string :=
  let q := if has_char quote1 s && negb (has_char quote2 s) then quote2 else quote1 in
  String q (escape q s ++ String q "").

(** [repr(v)]. *)
Fixpoint repr (v : json) : string :=
  match v with
  | JNull => "None"
  | JBool b => if b then "True" else "False"
  | JInt z => Text.of_Z z
  | JFloat f => float_repr f
  | JStr s => str_repr s
  | JArr l => "[" ++ Text.join ", " (map repr l) ++ "]"
  | JObj items =>
      "{" ++ Text.join ", "
               (map (fun kv => match kv with
                               | (k, x) => str_repr k ++ ": " ++ repr x
                               end) items) ++ "}"
  end.

(** [str(v)]. *)
Definition str (v : json) : string :=
  match v with
  | JStr s => s
  | _ => repr v
  end.

(** [type(v).__name__]. *)
Definition type_name (v : json) : string :=
  match v with
  | JNull => "NoneType"
  | JBool _ => "bool"
  | JInt _ => "int"
  | JFloat _ => "float"
  | JStr _ => "str"
  | JArr _ => "list"
  | JObj _ => "dict"
  end.

(** Truth value of [v], as [if not v] tests it. *)
Definition truthy (v : json) : bool :=
  match v with
  | JNull => false
  | JBool b => b
  | JInt z => negb (z =? 0)
  | JFloat f => negb (float_is_zero f)
  | JStr s => negb (String.eqb s "")
  | JArr l => match l with [] => false | _ => true end
  | JObj items => match items with [] => false | _ => true end
  end.

Definition is_none (v : json) : bool :=
  match v with JNull => true | _ => false end.

(** [isinstance(v, int)]: [bool] is a subclass of [int]. *)
Definition isinstance_int (v : json) : bool :=
  match v with
  | JInt _ | JBool _ => true
  | _ => false
  end.

(** The integer an instance of [int] stands for ([True] is [1]). *)
Definition int_value (v : json) : Z :=
  match v with
  | JInt z => z
  | JBool b => Z.b2z b
  | _ => 0
  end.

Fixpoint dict_get (k : string) (items : list (string * json)) : option json :=
  match items with
  | [] => None
  | (k', x) :: r => if String.eqb k' k then Some x else dict_get k r
  end.

Definition is_str (k : string) (v : json) : bool :=
  match v with
  | JStr s => String.eqb s k
  | _ => false
  end.

End Py.

(** ** Exceptions *)

Inductive exn :=
| IntegrityError (msg : string)
| OperationalError (msg : string)
| TypeError (msg : string)
| AttributeError (msg : string)
| KeyError (msg : string).

(** [str(e)]. *)
Definition exn_message (e : exn) : string :=
  match e with
  | IntegrityError m | OperationalError m | TypeError m
  | AttributeError m | KeyError m => m
  end.

Definition is_integrity (e : exn) : bool :=
  match e with IntegrityError _ => true | _ => false end.

Inductive result (A : Type) :=
| Ok (a : A)
| Raise (e : exn).
Arguments Ok {A} a.
Arguments Raise {A} e.

Module PyOps.

(** [k in v]. *)
Definition contains (k : string) (v : json) : result bool :=
  match v with
  | JObj items => Ok (match Py.dict_get k items with Some _ => true | None => false end)
  | JArr l => Ok (existsb (Py.is_str k) l)
  | JStr s => Ok (Text.contains k s)
  | _ => Raise (TypeError ("argument of type '" ++ Py.type_name v ++ "' is not iterable"))
  end.

(** [v[k]] for a string [k]. *)
Definition getitem (v : json) (k : string) : result json :=
  match v with
  | JObj items =>
      match Py.dict_get k items with
      | Some x => Ok x
      | None => Raise (KeyError (Py.str_repr k))
      end
  | JArr _ => Raise (TypeError "list indices must be integers or slices, not str")
  | JStr _ => Raise (TypeError "string indices must be integers, not 'str'")
  | _ => Raise (TypeError ("'" ++ Py.type_name v ++ "' object is not subscriptable"))
  end.

Definition no_attribute (v : json) (attr : string) : string :=
  "'" ++ Py.type_name v ++ "' object has no attribute '" ++ attr ++ "'".

(** [v.strip()]. *)
Definition strip (v : json) : result string :=
  match v with
  | JStr s => Ok (Text.strip s)
  | _ => Raise (AttributeError (no_attribute v "strip"))
  end.

End PyOps.

(** ** Decimal numbers *)

(** A [decimal.Decimal]: a finite number [(-1)^neg * coef * 10^exp], an
    infinity, or a (quiet or signaling) NaN with its payload. *)
Inductive Decimal :=
| DNum (neg : bool) (coef : N) (exp : Z)
| DInf (neg : bool)
| DNaN (neg : bool) (signaling : bool) (payload : N).

Module Dec.

Fixpoint span_digits (s : string) : string * string :=
  match s with
  | EmptyString => (EmptyString, EmptyString)
  | String c r =>
      if Text.is_digit c
      then let (d, rest) := span_digits r in (String c d, rest)
      else (EmptyString, s)
  end.

Fixpoint digits_value (acc : N) (s : string) : N :=
  match s with
  | EmptyString => acc
  | String c r => digits_value (10 * acc + Text.digit_val c)%N r
  end.

Definition all_digits (s : string) : bool :=
  match span_digits s with
  | (_, EmptyString) => true
  | _ => false
  end.

(** An optional sign. *)
Definition parse_sign (s : string) : bool * string :=
  match s with
  | String "-" r => (true, r)
  | String "+" r => (false, r)
  | _ => (false, s)
  end.

(** The exponent after the letter e: an optional sign and at least one
    digit, up to the end of the text. *)
Definition parse_exponent (s : string) : option Z :=
  let (neg, r) := parse_sign s in
  match r with
  | EmptyString => None
  | _ =>
      if all_digits r
      then Some (if neg then - Z.of_N (digits_value 0 r) else Z.of_N (digits_value 0 r))
      else None
  end.

(** The bounds of the C implementation of [decimal] (64-bit build): the
    largest adjusted exponent, and the smallest exponent a number can have
    without being rounded. *)
Definition EMAX : Z := 999999999999999999.
Definition ETINY : Z := -1999999999999999997.

(** The number of decimal digits of a coefficient (one for zero). *)
Definition num_digits (coef : N) : Z := Z.of_nat (String.length (Text.of_N coef)).

(** The constructor keeps a number only when it can do so exactly: an
    adjusted exponent above [EMAX] or an exponent below [ETINY] raises
    [InvalidOperation]. *)
Definition in_range (coef : N) (exp : Z) : bool :=
  negb ((0 <? exp) && (EMAX <? exp + num_digits coef - 1)) && (ETINY <=? exp).

(** The numeric alternative of the grammar, on lower-cased text: digits,
    then optionally a point and digits, then optionally the letter e and
    an exponent, with at least one digit in the integer or the fraction
    part, up to the end of the text. A number written with an exponent is
    checked against the bounds; one written without would need more than
    10^18 digits to leave them. *)
Definition parse_finite (neg : bool) (s : string) : option Decimal :=
  let (ip, r1) := span_digits s in
  let (fp, r2) :=
    match r1 with
    | String "." r => span_digits r
    | _ => (EmptyString, r1)
    end in
  match (ip ++ fp)%string with
  | EmptyString => None
  | ds =>
      let coef := digits_value 0 ds in
      let scale := Z.of_nat (String.length fp) in
      match r2 with
      | EmptyString => Some (DNum neg coef (- scale))
      | String "e" r3 =>
          match parse_exponent r3 with
          | Some e => if in_range coef (e - scale)
                      then Some (DNum neg coef (e - scale))
                      else None
          | None => None
          end
      | _ => None
      end
  end.

(** The special values, on lower-cased text: inf, infinity, and nan or
    snan followed by any number of digits. *)
Definition parse_special (neg : bool) (s : string) : option Decimal :=
  if String.eqb s "inf" || String.eqb s "infinity" then Some (DInf neg)
  else if Text.starts_with "nan" s then
    let d := Text.drop 3 s in
    if all_digits d then Some (DNaN neg false (digits_value 0 d)) else None
  else if Text.starts_with "snan" s then
    let d := Text.drop 4 s in
    if all_digits d then Some (DNaN neg true (digits_value 0 d)) else None
  else None.

(** [Decimal(s)] for a [str] of ASCII characters: surrounding whitespace
    and underscores are removed, letters match in either case; [None]
    stands for [InvalidOperation]. The conversion is exact, within the
    bounds of [in_range]. Digits and whitespace outside ASCII, which
    [Decimal] reads too, are outside the model: the theorems that state
    what this function answers assume ASCII text. *)
Definition of_string (s : string) : option Decimal :=
  let t := Text.lower (Text.remove_char "_" (Text.strip s)) in
  let (neg, r) := parse_sign t in
  match parse_finite neg r with
  | Some d => Some d
  | None => parse_special neg r
  end.

(** [d < 0]; [None] stands for the [InvalidOperation] an ordering
    comparison with a NaN signals. *)
Definition lt_zero (d : Decimal) : option bool :=
  match d with
  | DNum neg coef _ => Some (neg && negb (coef =? 0)%N)
  | DInf neg => Some neg
  | DNaN _ _ _ => None
  end.

End Dec.

(** ** Persistence layer *)

(** The mapped classes are declared outside the handler's file; their rows
    carry the attributes the handler sets. An [id] is [None] until the row
    is inserted. *)
Record Product := mkProduct {
  p_id : option Z;
  p_name : string;
  p_sku : string;
  p_price : Decimal;
  p_warehouse_id : json
}.

Record Inventory := mkInventory {
  i_id : option Z;
  i_product_id : option Z;
  i_warehouse_id : json;
  i_quantity : json
}.

Record Tables := mkTables {
  warehouses : list Z;
  products : list Product;
  inventories : list Inventory
}.

Inductive object :=
| OProduct (p : Product)
| OInventory (i : Inventory).

(** Calls to the persistence layer, as they show in the trace of a run. *)
Inductive db_op := OpGet | OpBegin | OpAdd | OpFlush | OpCommit | OpRollback.

(** What the handler cannot decide about the database behind the session:
    - [outage op]: the call [op] fails for a reason of its own (a lost
      connection, a rejected value), with the given message;
    - [violation op]: a row written by [op] breaks a constraint other than
      the uniqueness of [sku], with the given message;
    - [sku_violation]: the message of the error raised for a duplicate
      [sku];
    - [coerce_key]: the primary key a value that is not an [int] is
      compared as, if any. *)
Record Backend := mkBackend {
  outage : db_op -> option string;
  violation : db_op -> option string;
  sku_violation : string;
  coerce_key : json -> option Z
}.

(** The state a request runs in: the committed rows, the rows as the open
    transaction sees them, the objects added to the session, whether a
    transaction was begun and not yet ended, the server log and the calls
    made so far. *)
Record World := mkWorld {
  stored : Tables;
  view : Tables;
  objects : list object;
  in_transaction : bool;
  log : list string;
  trace : list db_op
}.

Definition fresh_session (db : Tables) : World :=
  {| stored := db; view := db; objects := []; in_transaction := false;
     log := []; trace := [] |}.

(** ** The monad of the handler: state and exceptions *)

Definition M (A : Type) : Type := World -> result A * World.

Definition ret {A} (a : A) : M A := fun w => (Ok a, w).

Definition bind {A B} (m : M A) (k : A -> M B) : M B :=
  fun w =>
    match m w with
    | (Ok a, w') => k a w'
    | (Raise e, w') => (Raise e, w')
    end.

Definition raise {A} (e : exn) : M A := fun w => (Raise e, w).

Definition lift {A} (r : result A) : M A := fun w => (r, w).

(** [try: m  except Exception as e: h e]. *)
Definition try_except {A} (m : M A) (h : exn -> M A) : M A :=
  fun w =>
    match m w with
    | (Ok a, w') => (Ok a, w')
    | (Raise e, w') => h e w'
    end.

Declare Scope monad_scope.
Delimit Scope monad_scope with monad.
Notation "x <- m ;; k" := (bind m (fun x => k))
  (at level 61, m at next level, right associativity) : monad_scope.
Notation "m ;; k" := (bind m (fun _ => k))
  (at level 61, right associativity) : monad_scope.
Open Scope monad_scope.

Module Db.

Definition record_call (op : db_op) : M unit :=
  fun w => (Ok tt, {| stored := stored w; view := view w; objects := objects w;
                      in_transaction := in_transaction w; log := log w;
                      trace := trace w ++ [op] |}).

Definition check_outage (b : Backend) (op : db_op) : M unit :=
  match outage b op with
  | Some m => raise (OperationalError m)
  | None => ret tt
  end.

Definition primary_key (b : Backend) (v : json) : option Z :=
  match v with
  | JInt z => Some z
  | _ => coerce_key b v
  end.

Definition find_warehouse (b : Backend) (v : json) (t : Tables) : option Z :=
  match primary_key b v with
  | Some z => if existsb (Z.eqb z) (warehouses t) then Some z else None
  | None => None
  end.

(** [Warehouse.query.get(v)]: the warehouse of primary key [v], or [None]. *)
Definition query_get (b : Backend) (v : json) : M (option Z) :=
  record_call OpGet ;;
  check_outage b OpGet ;;
  fun w => (Ok (find_warehouse b v (view w)), w).

Definition set_in_transaction (f : bool) : M unit :=
  fun w => (Ok tt, {| stored := stored w; view := view w; objects := objects w;
                      in_transaction := f; log := log w; trace := trace w |}).

(** [db.session.begin()]. *)
Definition begin (b : Backend) : M unit :=
  record_call OpBegin ;;
  check_outage b OpBegin ;;
  set_in_transaction true.

(** [db.session.add(o)]; the result is the place of [o] among the objects
    of the session, through which its attributes are read later. *)
Definition add (o : object) : M nat :=
  record_call OpAdd ;;
  fun w => (Ok (List.length (objects w)),
            {| stored := stored w; view := view w; objects := objects w ++ [o];
               in_transaction := in_transaction w; log := log w; trace := trace w |}).

Fixpoint max_id (ids : list (option Z)) : Z :=
  match ids with
  | [] => 0
  | Some z :: r => Z.max z (max_id r)
  | None :: r => max_id r
  end.

Definition next_id (ids : list (option Z)) : Z := max_id ids + 1.

Definition sku_taken (s : string) (t : Tables) : bool :=
  existsb (fun p => String.eqb (p_sku p) s) (products t).

(** Modelled from the spec: the declaration of the [Product] table is not
    in the handler's file; a Product's sku is unique across all Products,
    and the persistence layer enforces it when the row is written. *)
Definition insert_product (b : Backend) (op : db_op) (p : Product) (t : Tables)
  : result (Product * Tables) :=
  if sku_taken (p_sku p) t then Raise (IntegrityError (sku_violation b))
  else
    match violation b op with
    | Some m => Raise (IntegrityError m)
    | None =>
        let p' := {| p_id := Some (next_id (map p_id (products t)));
                     p_name := p_name p; p_sku := p_sku p; p_price := p_price p;
                     p_warehouse_id := p_warehouse_id p |} in
        Ok (p', {| warehouses := warehouses t; products := products t ++ [p'];
                   inventories := inventories t |})
    end.

Definition insert_inventory (b : Backend) (op : db_op) (i : Inventory) (t : Tables)
  : result (Inventory * Tables) :=
  match violation b op with
  | Some m => Raise (IntegrityError m)
  | None =>
      let i' := {| i_id := Some (next_id (map i_id (inventories t)));
                   i_product_id := i_product_id i;
                   i_warehouse_id := i_warehouse_id i;
                   i_quantity := i_quantity i |} in
      Ok (i', {| warehouses := warehouses t; products := products t;
                 inventories := inventories t ++ [i'] |})
  end.

(** Writes the objects that have no [id] yet, in the order they were
    added; stops at the first error, the rows written before it staying in
    the transaction. *)
Fixpoint flush_objects (b : Backend) (op : db_op) (objs : list object) (t : Tables)
  : option exn * list object * Tables :=
  match objs with
  | [] => (None, [], t)
  | OProduct p :: r =>
      match p_id p with
      | Some _ =>
          let '(e, r', t') := flush_objects b op r t in (e, OProduct p :: r', t')
      | None =>
          match insert_product b op p t with
          | Ok (p', t1) =>
              let '(e, r', t') := flush_objects b op r t1 in (e, OProduct p' :: r', t')
          | Raise e => (Some e, objs, t)
          end
      end
  | OInventory i :: r =>
      match i_id i with
      | Some _ =>
          let '(e, r', t') := flush_objects b op r t in (e, OInventory i :: r', t')
      | None =>
          match insert_inventory b op i t with
          | Ok (i', t1) =>
              let '(e, r', t') := flush_objects b op r t1 in (e, OInventory i' :: r', t')
          | Raise e => (Some e, objs, t)
          end
      end
  end.

Definition write_pending (b : Backend) (op : db_op) : M unit :=
  fun w =>
    let '(e, objs, t) := flush_objects b op (objects w) (view w) in
    (match e with Some x => Raise x | None => Ok tt end,
     {| stored := stored w; view := t; objects := objs;
        in_transaction := in_transaction w; log := log w; trace := trace w |}).

(** [db.session.flush()]. *)
Definition flush (b : Backend) : M unit :=
  record_call OpFlush ;;
  check_outage b OpFlush ;;
  write_pending b OpFlush.

(** [db.session.commit()]: writes what is pending, then makes the rows of
    the transaction the committed ones. *)
Definition commit (b : Backend) : M unit :=
  record_call OpCommit ;;
  check_outage b OpCommit ;;
  write_pending b OpCommit ;;
  fun w => (Ok tt, {| stored := view w; view := view w; objects := objects w;
                      in_transaction := false; log := log w; trace := trace w |}).

(** [db.session.rollback()]: the rows of the transaction and the objects
    of the session are dropped. *)
Definition rollback : M unit :=
  record_call OpRollback ;;
  fun w => (Ok tt, {| stored := stored w; view := stored w; objects := [];
                      in_transaction := false; log := log w; trace := trace w |}).

(** [product.id] and [product.sku], read through the session. *)
Definition attr_id (h : nat) : M (option Z) :=
  fun w =>
    (Ok match nth_error (objects w) h with
        | Some (OProduct p) => p_id p
        | Some (OInventory i) => i_id i
        | None => None
        end, w).

Definition attr_sku (h : nat) : M string :=
  fun w =>
    (Ok match nth_error (objects w) h with
        | Some (OProduct p) => p_sku p
        | _ => ""
        end, w).

End Db.

(** [logging.error(msg)]. *)
Definition logging_error (msg : string) : M unit :=
  fun w => (Ok tt, {| stored := stored w; view := view w; objects := objects w;
                      in_transaction := in_transaction w; log := log w ++ [msg];
                      trace := trace w |}).

(** ** The handler *)

(** A response: the status code and the JSON object given to [jsonify]. *)
Record Response := mkResponse {
  status : Z;
  body : list (string * json)
}.

Definition error_response (msg : string) (code : Z) : Response :=
  {| status := code; body := [("error", JStr msg)] |}.

Definition id_value (i : option Z) : json :=
  match i with
  | Some z => JInt z
  | None => JNull
  end.

Definition created_response (pid : option Z) (sku : string) : Response :=
  {| status := 201;
     body := [("message", JStr "Product created successfully");
              ("product_id", id_value pid);
              ("sku", JStr sku)] |}.

Definition required_fields : list string :=
  ["name"; "sku"; "price"; "warehouse_id"; "initial_quantity"].

(** The loop over [required_fields]: the first [field] with
    [field not in data or data[field] is None], if there is one. *)
Fixpoint first_missing (data : json) (fields : list string) : result (option string) :=
  match fields with
  | [] => Ok None
  | field :: rest =>
      match PyOps.contains field data with
      | Raise e => Raise e
      | Ok false => Ok (Some field)
      | Ok true =>
          match PyOps.getitem data field with
          | Raise e => Raise e
          | Ok v => if Py.is_none v then Ok (Some field) else first_missing data rest
          end
      end
  end.

(** The inner [try] around the price: [Decimal(str(v))], then [price < 0];
    [InvalidOperation] from either gives the format error. *)
Definition check_price (v : json) : Response + Decimal :=
  match Dec.of_string (Py.str v) with
  | None => inl (error_response "Invalid price format" 400)
  | Some price =>
      match Dec.lt_zero price with
      | None => inl (error_response "Invalid price format" 400)
      | Some true => inl (error_response "Price cannot be negative" 400)
      | Some false => inr price
      end
  end.

(** [not isinstance(q, int) or q < 0]. *)
Definition bad_quantity (q : json) : bool :=
  negb (Py.isinstance_int q) || (Py.int_value q <? 0).

(** The body of the outer [try]. *)
Definition try_block (b : Backend) (data : json) : M Response :=
  if negb (Py.truthy data) then
    ret (error_response "No JSON data provided" 400)
  else
    missing <- lift (first_missing data required_fields) ;;
    match missing with
    | Some field => ret (error_response ("Missing required field: " ++ field) 400)
    | None =>
        price_value <- lift (PyOps.getitem data "price") ;;
        match check_price price_value with
        | inl r => ret r
        | inr price =>
            initial_quantity <- lift (PyOps.getitem data "initial_quantity") ;;
            if bad_quantity initial_quantity then
              ret (error_response "Initial quantity must be non-negative integer" 400)
            else
              wid <- lift (PyOps.getitem data "warehouse_id") ;;
              warehouse <- Db.query_get b wid ;;
              match warehouse with
              | None => ret (error_response "Warehouse not found" 404)
              | Some _ =>
                  Db.begin b ;;
                  name_value <- lift (PyOps.getitem data "name") ;;
                  name <- lift (PyOps.strip name_value) ;;
                  sku_value <- lift (PyOps.getitem data "sku") ;;
                  sku <- lift (PyOps.strip sku_value) ;;
                  wid1 <- lift (PyOps.getitem data "warehouse_id") ;;
                  product <- Db.add (OProduct {| p_id := None;
                                                 p_name := name;
                                                 p_sku := Text.upper sku;
                                                 p_price := price;
                                                 p_warehouse_id := wid1 |}) ;;
                  Db.flush b ;;
                  pid <- Db.attr_id product ;;
                  wid2 <- lift (PyOps.getitem data "warehouse_id") ;;
                  _ <- Db.add (OInventory {| i_id := None;
                                             i_product_id := pid;
                                             i_warehouse_id := wid2;
                                             i_quantity := initial_quantity |}) ;;
                  Db.commit b ;;
                  pid' <- Db.attr_id product ;;
                  sku' <- Db.attr_sku product ;;
                  ret (created_response pid' sku')
              end
        end
    end.

(** The two [except] clauses, in their order: [IntegrityError] first,
    then any other [Exception]. *)
Definition handle (e : exn) : M Response :=
  if is_integrity e then
    Db.rollback ;;
    if Text.contains "sku" (Text.lower (exn_message e))
    then ret (error_response "SKU already exists" 409)
    else ret (error_response "Database constraint violation" 400)
  else
    Db.rollback ;;
    logging_error ("Error creating product: " ++ exn_message e) ;;
    ret (error_response "Internal server error" 500).

(** [create_product], on the value [request.get_json()] returned. *)
Definition create_product_m (b : Backend) (data : json) : M Response :=
  try_except (try_block b data) handle.

(** One request against the committed rows [db], in a session of its
    own. *)
Definition create_product (b : Backend) (db : Tables) (data : json)
  : result Response * World :=
  create_product_m b data (fresh_session db).

(** ** Sample data *)

Definition quiet_backend : Backend :=
  {| outage := fun _ => None;
     violation := fun _ => None;
     sku_violation := "UNIQUE constraint failed: product.sku";
     coerce_key := fun _ => None |}.

(** A persistence layer that loses its connection at [commit]. *)
Definition failing_commit : Backend :=
  {| outage := fun op =>
                 match op with
                 | OpCommit => Some "server closed the connection"
                 | _ => None
                 end;
     violation := fun _ => None;
     sku_violation := "UNIQUE constraint failed: product.sku";
     coerce_key := fun _ => None |}.

Definition one_warehouse : Tables :=
  {| warehouses := [1]; products := []; inventories := [] |}.

Definition widget_items : list (string * json) :=
  [("name", JStr "Widget"); ("sku", JStr " abc-1 "); ("price", JStr "9.99");
   ("warehouse_id", JInt 1); ("initial_quantity", JInt 10)].

Definition widget_payload : json := JObj widget_items.

(** The words of the specification about a payload. *)

(** The key [k] of the mapping [items] is absent or null. *)
Definition absent_or_null (items : list (string * json)) (k : string) : bool :=
  match Py.dict_get k items with
  | Some v => Py.is_none v
  | None => true
  end.

(** The value of the key [k] of the payload; [None] when there is none. *)
Definition field (d : json) (k : string) : json :=
  match PyOps.getitem d k with
  | Ok v => v
  | Raise _ => JNull
  end.

(** The payload passes the four validation steps that come before the
    warehouse lookup: presence, required fields, price, quantity. *)
Definition validated (d : json) : bool :=
  Py.truthy d
  && match first_missing d required_fields with Ok None => true | _ => false end
  && match check_price (field d "price") with inr _ => true | inl _ => false end
  && negb (bad_quantity (field d "initial_quantity")).

(** What [Warehouse.query.get] answers for the payload's [warehouse_id]. *)
Definition lookup (b : Backend) (db : Tables) (d : json) : result (option Z) :=
  fst (Db.query_get b (field d "warehouse_id") (fresh_session db)).

Definition is_string (v : json) : bool :=
  match v with
  | JStr _ => true
  | _ => false
  end.

(** Text the normalisation of [Decimal] leaves as it is. *)
Fixpoint all_chars (f : ascii -> bool) (s : string) : bool :=
  match s with
  | EmptyString => true
  | String c r => f c && all_chars f r
  end.

Definition clean (c : ascii) : bool :=
  negb (Text.is_space c) && negb (Ascii.eqb c "_") && Ascii.eqb (Text.lower_char c) c.

Definition starts_with_digit (s : string) : bool :=
  match s with
  | String c _ => Text.is_digit c
  | EmptyString => false
  end.

Definition sign_text (neg : bool) : string := if neg then "-" else "".

(** A Product row has an Inventory row that refers to it, and the other
    way round. *)
Definition same_id (a b : option Z) : bool :=
  match a, b with
  | Some x, Some y => x =? y
  | _, _ => false
  end.

Definition has_inventory (t : Tables) (p : Product) : bool :=
  existsb (fun i => same_id (i_product_id i) (p_id p)) (inventories t).

Definition has_product (t : Tables) (i : Inventory) : bool :=
  existsb (fun p => same_id (i_product_id i) (p_id p)) (products t).

Definition paired (t : Tables) : bool :=
  forallb (has_inventory t) (products t) && forallb (has_product t) (inventories t).

(** What a payload that passed the presence check and the loop over the
    required fields looks like: a mapping, every required key in it. *)
Record shaped (d : json) (items : list (string * json)) : Prop := {
  sh_dict : d = JObj items;
  sh_truthy : negb (Py.truthy d) = false;
  sh_loop : first_missing d required_fields = Ok None;
  sh_name : PyOps.getitem d "name" = Ok (field d "name");
  sh_sku : PyOps.getitem d "sku" = Ok (field d "sku");
  sh_price : PyOps.getitem d "price" = Ok (field d "price");
  sh_wid : PyOps.getitem d "warehouse_id" = Ok (field d "warehouse_id");
  sh_qty : PyOps.getitem d "initial_quantity" = Ok (field d "initial_quantity")
}.

(** The five fields of a mapping, its name and sku being strings. *)
Record payload_fields (items : list (string * json))
       (name sku : string) (price wid quantity : json) : Prop := {
  pf_name : Py.dict_get "name" items = Some (JStr name);
  pf_sku : Py.dict_get "sku" items = Some (JStr sku);
  pf_price : Py.dict_get "price" items = Some price;
  pf_wid : Py.dict_get "warehouse_id" items = Some wid;
  pf_qty : Py.dict_get "initial_quantity" items = Some quantity
}.

(** More sample data. *)

Definition sample (name sku price wid quantity : json) : json :=
  JObj [("name", name); ("sku", sku); ("price", price);
        ("warehouse_id", wid); ("initial_quantity", quantity)].


Definition negative_price_payload : json :=
  sample (JStr "Widget") (JStr "abc-1") (JInt (-5)) (JInt 1) (JInt 10).

Definition unknown_warehouse_payload : json :=
  sample (JStr "Widget") (JStr "abc-1") (JStr "9.99") (JInt 2) (JInt 10).

Definition numeric_name_payload : json :=
  sample (JInt 7) (JStr "abc-2") (JStr "9.99") (JInt 1) (JInt 10).

Definition boolean_quantity_payload : json :=
  sample (JStr "Widget") (JStr " abc-1 ") (JStr "9.99") (JInt 1) (JBool true).

Definition same_sku_payload : json :=
  sample (JStr "Other") (JStr "ABC-1  ") (JInt 3) (JInt 1) (JInt 0).

(** A mapping without [sku] and without [warehouse_id]. *)
Definition two_missing_items : list (string * json) :=
  [("name", JStr "Widget"); ("price", JStr "9.99"); ("initial_quantity", JInt 10)].

(** The rows after the sample payload was accepted. *)
Definition widget_stored : Tables :=
  stored (snd (create_product quiet_backend one_warehouse widget_payload)).

(** Words for the further properties of the handler. *)

(** [s.strip().upper()], the form in which the handler stores a sku. *)
Definition normalize_sku (s : string) : string := Text.upper (Text.strip s).

(** The error responses written in the handler, the one that names a
    missing field apart. *)
Definition fixed_errors : list Response :=
  [error_response "No JSON data provided" 400;
   error_response "Invalid price format" 400;
   error_response "Price cannot be negative" 400;
   error_response "Initial quantity must be non-negative integer" 400;
   error_response "Warehouse not found" 404;
   error_response "SKU already exists" 409;
   error_response "Database constraint violation" 400;
   error_response "Internal server error" 500].

(** The calls of a request that succeeds, in their order. *)
Definition call_sequence : list db_op :=
  [OpGet; OpBegin; OpAdd; OpFlush; OpAdd; OpCommit].

Definition skus_distinct (t : Tables) : Prop :=
  NoDup (map p_sku (products t)).

Definition skus_normalized (t : Tables) : Prop :=
  Forall (fun p => normalize_sku (p_sku p) = p_sku p) (products t).

(** A price that is a boolean, an array or a mapping. *)
Definition price_of_wrong_type (v : json) : bool :=
  match v with
  | JBool _ | JArr _ | JObj _ => true
  | _ => false
  end.

(** What is left of a text after [lstrip] does not start with a space. *)
Definition no_leading_space (s : string) : bool :=
  match s with
  | String c _ => negb (Text.is_space c)
  | EmptyString => true
  end.

(** Sample payloads with a quantity of 2.5 and with an array as price. *)
Definition fractional_quantity_payload : json :=
  sample (JStr "Widget") (JStr "abc-1") (JStr "9.99") (JInt 1)
         (JFloat (FNum false 25 (-1))).

Definition array_price_payload : json :=
  sample (JStr "Widget") (JStr "abc-1") (JArr [JInt 1]) (JInt 1) (JInt 10).

(** Text of ASCII characters only: the text on which the model of the
    string and decimal operations is the one of Python. *)
Definition is_ascii_text (s : string) : bool :=
  all_chars (fun c => (Text.code c <? 128)%N) s.

(** The name, the sku and the text of the price of a payload are ASCII. *)
Definition ascii_payload (d : json) : bool :=
  is_ascii_text (Py.str (field d "name"))
  && is_ascii_text (Py.str (field d "sku"))
  && is_ascii_text (Py.str (field d "price")).

(** A message in which the letters s, k, u follow one another, in either
    case. *)
Definition spells_sku (a b c : ascii) : bool :=
  (Ascii.eqb a "s" || Ascii.eqb a "S")
  && (Ascii.eqb b "k" || Ascii.eqb b "K")
  && (Ascii.eqb c "u" || Ascii.eqb c "U").

Definition mentions_sku (msg : string) : Prop :=
  exists pre a b c post,
    msg = (pre ++ String a (String b (String c post)))%string /\
    spells_sku a b c = true.

(** Two characters that are equal or the two cases of one letter. *)
Definition same_letter (a b : ascii) : bool :=
  let x := Text.code a in
  let y := Text.code b in
  ((x =? y) || ((65 <=? x) && (x <=? 90) && (y =? x + 32))
   || ((65 <=? y) && (y <=? 90) && (x =? y + 32)))%N.

Fixpoint same_letters (s t : string) : bool :=
  match s, t with
  | EmptyString, EmptyString => true
  | String a s', String b t' => same_letter a b && same_letters s' t'
  | _, _ => false
  end.

(** Two skus that differ only in the whitespace around them and in the
    case of their letters. *)
Definition same_sku (s t : string) : Prop :=
  exists l1 c1 r1 l2 c2 r2,
    s = (l1 ++ c1 ++ r1)%string /\ t = (l2 ++ c2 ++ r2)%string /\
    all_chars Text.is_space l1 = true /\ all_chars Text.is_space r1 = true /\
    all_chars Text.is_space l2 = true /\ all_chars Text.is_space r2 = true /\
    same_letters c1 c2 = true.

(** The calls of a request up to a call that can fail. *)
Definition calls_until (op : db_op) : list db_op :=
  match op with
  | OpGet => [OpGet]
  | OpBegin => [OpGet; OpBegin]
  | OpFlush => [OpGet; OpBegin; OpAdd; OpFlush]
  | OpCommit => call_sequence
  | OpAdd | OpRollback => []
  end.




(** A persistence layer in which the insertion of the Product breaks a
    foreign key, with the message SQLAlchemy gives (it quotes the
    statement), and one in which the insertion of the Inventory breaks a
    check constraint. *)
Definition foreign_key_backend : Backend :=
  {| outage := fun _ => None;
     violation := fun op =>
       match op with
       | OpFlush => Some "(sqlite3.IntegrityError) FOREIGN KEY constraint failed [SQL: INSERT INTO product (name, sku, price, warehouse_id) VALUES (?, ?, ?, ?)]"
       | _ => None
       end;
     sku_violation := "UNIQUE constraint failed: product.sku";
     coerce_key := fun _ => None |}.

Definition check_constraint_backend : Backend :=
  {| outage := fun _ => None;
     violation := fun op =>
       match op with
       | OpCommit => Some "(sqlite3.IntegrityError) CHECK constraint failed: stock_limit [SQL: INSERT INTO inventory (product_id, warehouse_id, quantity) VALUES (?, ?, ?)]"
       | _ => None
       end;
     sku_violation := "UNIQUE constraint failed: product.sku";
     coerce_key := fun _ => None |}.



(** ** Symbolic execution of the handler *)

Ltac exec_in E :=
  cbv beta iota zeta delta
      [create_product create_product_m try_except try_block handle bind ret lift raise
       Db.query_get Db.begin Db.add Db.flush Db.commit Db.rollback Db.record_call
       Db.check_outage Db.set_in_transaction Db.write_pending Db.attr_id Db.attr_sku
       logging_error fresh_session] in E;
  cbn [Db.flush_objects nth_error List.length app PyOps.strip
       stored view objects in_transaction log trace
       p_id p_name p_sku p_price p_warehouse_id i_id i_product_id i_warehouse_id i_quantity
       warehouses products inventories fst snd negb is_integrity exn_message] in E;
  cbv beta iota zeta delta [Db.insert_product Db.insert_inventory] in E;
  cbn [stored view objects in_transaction log trace
       p_id p_name p_sku p_price p_warehouse_id i_id i_product_id i_warehouse_id i_quantity
       warehouses products inventories fst snd] in E.

Ltac app_head t :=
  lazymatch t with
  | ?f _ => app_head f
  | _ => t
  end.

(** The term whose value the evaluation of [t] waits for. *)
Ltac stuck t :=
  let h := app_head t in
  lazymatch h with
  | match ?x with _ => _ end => stuck x
  | _ => t
  end.

(** One step of the run recorded in [E : run = (r, w)]: the pending test
    is decided by a hypothesis when there is one, by cases otherwise. *)
Ltac step E :=
  exec_in E;
  lazymatch type of E with
  | ?lhs = _ =>
      let h := app_head lhs in
      lazymatch h with
      | match ?x with _ => _ end =>
          let s := stuck x in
          first [ match goal with H : s = _ |- _ => rewrite H in E end
                | destruct s eqn:? ]
      end
  end.

Ltac run E := repeat (step E); exec_in E.

Ltac finish E := injection E as <- <-.

Ltac use_shape S :=
  let H1 := fresh "Sh" in pose proof (sh_truthy _ _ S) as H1;
  let H2 := fresh "Sh" in pose proof (sh_loop _ _ S) as H2;
  let H3 := fresh "Sh" in pose proof (sh_name _ _ S) as H3;
  let H4 := fresh "Sh" in pose proof (sh_sku _ _ S) as H4;
  let H5 := fresh "Sh" in pose proof (sh_price _ _ S) as H5;
  let H6 := fresh "Sh" in pose proof (sh_wid _ _ S) as H6;
  let H7 := fresh "Sh" in pose proof (sh_qty _ _ S) as H7.

(** ** The loop over the required fields *)

(** On a mapping the loop finds the first key that is absent or null. *)
Lemma first_missing_dict (items : list (string * json)) (fields : list string) :
  first_missing (JObj items) fields = Ok (find (absent_or_null items) fields).
Proof.
  induction fields as [|k rest IH]; cbn [first_missing find]; [reflexivity|].
  unfold absent_or_null at 1. cbn [PyOps.contains PyOps.getitem].
  destruct (Py.dict_get k items) as [v|]; [|reflexivity].
  destruct (Py.is_none v); [reflexivity|exact IH].
Qed.

(** On anything else it reports the first key or raises. *)
Lemma first_missing_not_dict (d : json) (k : string) (rest : list string) :
  (forall items, d <> JObj items) ->
  first_missing d (k :: rest) <> Ok None.
Proof.
  intros Hd. cbn [first_missing].
  destruct d; cbn [PyOps.contains PyOps.getitem]; try discriminate.
  - destruct (Text.contains k s); discriminate.
  - destruct (existsb (Py.is_str k) l); discriminate.
  - exfalso. eapply Hd. reflexivity.
Qed.

Lemma find_none_forall {A} (f : A -> bool) (l : list A) :
  find f l = None -> forall x, In x l -> f x = false.
Proof.
  induction l as [|a l IH]; cbn; intros H x Hx; [contradiction|].
  destruct (f a) eqn:Ea; [discriminate|].
  destruct Hx as [<-|Hx]; auto.
Qed.

Lemma passes_required_inv (d : json) :
  first_missing d required_fields = Ok None ->
  exists items, d = JObj items /\
    forall k, In k required_fields ->
      exists v, Py.dict_get k items = Some v /\ Py.is_none v = false.
Proof.
  intros H.
  destruct d as [ | bb | z | f | s | l | items];
    try (exfalso; revert H; apply first_missing_not_dict; discriminate).
  exists items. split; [reflexivity|].
  rewrite first_missing_dict in H.
  assert (Hn : find (absent_or_null items) required_fields = None) by congruence.
  intros k Hk. pose proof (find_none_forall _ _ Hn k Hk) as Hf.
  unfold absent_or_null in Hf.
  destruct (Py.dict_get k items) as [v|]; [eauto|discriminate].
Qed.

Lemma getitem_dict (items : list (string * json)) (k : string) (v : json) :
  Py.dict_get k items = Some v -> PyOps.getitem (JObj items) k = Ok v.
Proof. intros H. cbn. rewrite H. reflexivity. Qed.

Lemma field_dict (items : list (string * json)) (k : string) (v : json) :
  Py.dict_get k items = Some v -> field (JObj items) k = v.
Proof. intros H. unfold field. cbn. rewrite H. reflexivity. Qed.

Lemma field_getitem (d : json) (k : string) (v : json) :
  PyOps.getitem d k = Ok v -> field d k = v.
Proof. intros H. unfold field. rewrite H. reflexivity. Qed.

Lemma required_in (k : string) :
  k = "name" \/ k = "sku" \/ k = "price" \/ k = "warehouse_id" \/ k = "initial_quantity" ->
  In k required_fields.
Proof. unfold required_fields. cbn. intuition. Qed.

Lemma passes_required_shaped (d : json) :
  Py.truthy d = true ->
  first_missing d required_fields = Ok None ->
  exists items, shaped d items.
Proof.
  intros Ht Hl. destruct (passes_required_inv d Hl) as (items & -> & Hk).
  exists items.
  assert (G : forall k, In k required_fields ->
                PyOps.getitem (JObj items) k = Ok (field (JObj items) k)).
  { intros k Hin. destruct (Hk k Hin) as (v & Hv & _).
    rewrite (field_dict _ _ _ Hv). apply getitem_dict, Hv. }
  constructor; try (apply G, required_in; intuition); auto.
  rewrite Ht. reflexivity.
Qed.

Lemma payload_fields_shaped items name sku pv wid quantity :
  payload_fields items name sku pv wid quantity ->
  Py.is_none pv = false -> Py.is_none wid = false -> Py.is_none quantity = false ->
  shaped (JObj items) items /\
  field (JObj items) "name" = JStr name /\
  field (JObj items) "sku" = JStr sku /\
  field (JObj items) "price" = pv /\
  field (JObj items) "warehouse_id" = wid /\
  field (JObj items) "initial_quantity" = quantity.
Proof.
  intros [Hn Hs Hp Hw Hq] Np Nw Nq.
  assert (Ht : Py.truthy (JObj items) = true).
  { destruct items; [discriminate|reflexivity]. }
  assert (Hl : first_missing (JObj items) required_fields = Ok None).
  { rewrite first_missing_dict. unfold required_fields. cbn [find].
    unfold absent_or_null. rewrite Hn, Hs, Hp, Hw, Hq.
    cbn [Py.is_none]. rewrite Np, Nw, Nq. reflexivity. }
  rewrite (field_dict _ _ _ Hn), (field_dict _ _ _ Hs), (field_dict _ _ _ Hp),
    (field_dict _ _ _ Hw), (field_dict _ _ _ Hq).
  repeat split; auto.
  - rewrite Ht. reflexivity.
  - rewrite (field_dict _ _ _ Hn). apply getitem_dict, Hn.
  - rewrite (field_dict _ _ _ Hs). apply getitem_dict, Hs.
  - rewrite (field_dict _ _ _ Hp). apply getitem_dict, Hp.
  - rewrite (field_dict _ _ _ Hw). apply getitem_dict, Hw.
  - rewrite (field_dict _ _ _ Hq). apply getitem_dict, Hq.
Qed.

(** ** The single checks *)

Lemma check_price_rejects (v : json) (r : Response) :
  check_price v = inl r ->
  r = error_response "Invalid price format" 400 \/
  r = error_response "Price cannot be negative" 400.
Proof.
  unfold check_price.
  destruct (Dec.of_string (Py.str v)) as [p|]; [|intros [= <-]; auto].
  destruct (Dec.lt_zero p) as [[|]|]; intros [= <-]; auto.
Qed.

Lemma check_price_status (v : json) (r : Response) :
  check_price v = inl r -> status r = 400.
Proof. intros H. destruct (check_price_rejects v r H) as [-> | ->]; reflexivity. Qed.

Lemma check_price_not_none (v : json) (p : Decimal) :
  check_price v = inr p -> Py.is_none v = false.
Proof. destruct v; try reflexivity. vm_compute. discriminate. Qed.

(** The quantity check lets through the non-negative [int]s, and the two
    [bool]s with them. *)
Lemma bad_quantity_spec (q : json) :
  bad_quantity q = false <->
  (exists z, q = JInt z /\ 0 <= z) \/ (exists x, q = JBool x).
Proof.
  unfold bad_quantity. split.
  - destruct q; cbn; try discriminate.
    + eauto.
    + intros H. left. eexists. split; [reflexivity|]. apply Z.ltb_ge. exact H.
  - intros [(z & -> & Hz) | (x & ->)]; cbn.
    + apply Z.ltb_ge. exact Hz.
    + destruct x; reflexivity.
Qed.

Lemma quantity_int (q : Z) : 0 <= q -> bad_quantity (JInt q) = false.
Proof. intros H. unfold bad_quantity. cbn. apply Z.ltb_ge. exact H. Qed.

Lemma validated_inv (d : json) :
  validated d = true ->
  Py.truthy d = true /\
  first_missing d required_fields = Ok None /\
  (exists price, check_price (field d "price") = inr price) /\
  bad_quantity (field d "initial_quantity") = false.
Proof.
  unfold validated. rewrite !andb_true_iff. intros [[[H1 H2] H3] H4].
  repeat split; auto.
  - destruct (first_missing d required_fields) as [[|]|]; congruence.
  - destruct (check_price (field d "price")); [discriminate|eauto].
  - destruct (bad_quantity (field d "initial_quantity")); [discriminate|reflexivity].
Qed.

Lemma lookup_inv (b : Backend) (db : Tables) (d : json) (o : option Z) :
  lookup b db d = Ok o ->
  outage b OpGet = None /\ Db.find_warehouse b (field d "warehouse_id") db = o.
Proof.
  unfold lookup, Db.query_get, Db.record_call, Db.check_outage, bind, ret, raise.
  cbn. destruct (outage b OpGet); cbn; [discriminate|].
  intros [= <-]. auto.
Qed.

Lemma find_warehouse_int (b : Backend) (db : Tables) (z : Z) :
  In z (warehouses db) -> Db.find_warehouse b (JInt z) db = Some z.
Proof.
  intros H. unfold Db.find_warehouse. cbn [Db.primary_key].
  replace (existsb (Z.eqb z) (warehouses db)) with true; [reflexivity|].
  symmetry. apply existsb_exists. exists z. split; [exact H|apply Z.eqb_refl].
Qed.

Lemma strip_ok_inv (v : json) (s : string) :
  PyOps.strip v = Ok s -> exists t, v = JStr t /\ s = Text.strip t.
Proof. destruct v; cbn; try discriminate. intros [= <-]. eauto. Qed.

(** ** Rows *)

Lemma same_id_refl (z : Z) : same_id (Some z) (Some z) = true.
Proof. cbn. apply Z.eqb_refl. Qed.

Lemma paired_extend (t : Tables) (p : Product) (i : Inventory) :
  paired t = true ->
  same_id (i_product_id i) (p_id p) = true ->
  paired {| warehouses := warehouses t; products := products t ++ [p];
            inventories := inventories t ++ [i] |} = true.
Proof.
  unfold paired, has_inventory, has_product. cbn [products inventories].
  intros H Hs. apply andb_true_iff in H as [H1 H2].
  rewrite !forallb_app. cbn [forallb].
  rewrite !andb_true_iff. repeat split.
  - rewrite forallb_forall in *. intros x Hx. rewrite existsb_app, (H1 x Hx). reflexivity.
  - rewrite existsb_app. cbn [existsb]. rewrite Hs, orb_true_r. reflexivity.
  - rewrite forallb_forall in *. intros x Hx. rewrite existsb_app, (H2 x Hx). reflexivity.
  - rewrite existsb_app. cbn [existsb]. rewrite Hs, orb_true_r. reflexivity.
Qed.

Lemma sku_taken_added (p : Product) (ps : list Product) (w : list Z)
      (inv : list Inventory) :
  Db.sku_taken (p_sku p)
    {| warehouses := w; products := ps ++ [p]; inventories := inv |} = true.
Proof.
  unfold Db.sku_taken. cbn [products]. rewrite existsb_app. cbn [existsb].
  rewrite String.eqb_refl, !orb_true_r. reflexivity.
Qed.

(** ** Runs of the handler *)

(** When the body of the [try] raises, nothing was committed and nothing
    was logged yet. *)
Lemma try_block_raise (b : Backend) (db : Tables) (d : json) (e : exn) (w0 : World) :
  try_block b d (fresh_session db) = (Raise e, w0) ->
  stored w0 = db /\ log w0 = [].
Proof.
  intros E. run E; try discriminate; injection E as _ <-; cbn; auto.
Qed.

(** What a 201 tells about the payload and the rows. *)
Lemma created_sku (b : Backend) (db : Tables) (d : json) (r : Response) (w : World) :
  create_product b db d = (Ok r, w) ->
  status r = 201 ->
  exists sku pid,
    field d "sku" = JStr sku /\
    r = created_response (Some pid) (Text.upper (Text.strip sku)) /\
    Db.sku_taken (Text.upper (Text.strip sku)) (stored w) = true.
Proof.
  intros E Hs.
  run E; injection E as <- <-; cbn [status error_response] in Hs; try discriminate.
  - exfalso. erewrite check_price_status in Hs by eassumption. discriminate.
  - match goal with
    | H : PyOps.strip ?a = Ok ?s, G : PyOps.getitem d "sku" = Ok ?a |- _ =>
        destruct (strip_ok_inv _ _ H) as (t & -> & ->); rewrite (field_getitem _ _ _ G)
    end.
    eexists; eexists. split; [reflexivity|]. split; [reflexivity|].
    cbn [stored].
    match goal with
    | |- Db.sku_taken _ {| products := _ ++ [?p] |} = true => apply (sku_taken_added p)
    end.
Qed.

(** A quantity the check refuses ends the request with the 400 of the
    quantity, before any call to the persistence layer. *)
Lemma quantity_rejected (b : Backend) (db : Tables) (d : json) (price : Decimal) :
  Py.truthy d = true ->
  first_missing d required_fields = Ok None ->
  check_price (field d "price") = inr price ->
  bad_quantity (field d "initial_quantity") = true ->
  create_product b db d =
    (Ok (error_response "Initial quantity must be non-negative integer" 400),
     fresh_session db).
Proof.
  intros Ht Hl Hp Hq.
  destruct (passes_required_shaped d Ht Hl) as (items & S). use_shape S.
  destruct (create_product b db d) as [r w] eqn:E.
  run E. symmetry. exact E.
Qed.

(** ** Exactness of the decimal reading *)

Lemma all_chars_app (f : ascii -> bool) (s t : string) :
  all_chars f (s ++ t) = all_chars f s && all_chars f t.
Proof. induction s as [|c r IH]; cbn; [reflexivity|]. rewrite IH, andb_assoc. reflexivity. Qed.

Lemma all_chars_impl (f g : ascii -> bool) (s : string) :
  (forall c, f c = true -> g c = true) -> all_chars f s = true -> all_chars g s = true.
Proof.
  intros H. induction s as [|c r IH]; cbn; [reflexivity|].
  intros E. apply andb_true_iff in E as [Hc Hr]. rewrite (H c Hc), (IH Hr). reflexivity.
Qed.

Lemma digit_clean (c : ascii) : Text.is_digit c = true -> clean c = true.
Proof.
  destruct c as [[|] [|] [|] [|] [|] [|] [|] [|]]; vm_compute; intros H;
    try discriminate H; reflexivity.
Qed.

Lemma clean_inv (c : ascii) :
  clean c = true ->
  Text.is_space c = false /\ Ascii.eqb c "_" = false /\ Text.lower_char c = c.
Proof.
  unfold clean. rewrite !andb_true_iff, !negb_true_iff.
  intros [[H1 H2] H3]. apply Ascii.eqb_eq in H3. auto.
Qed.

Lemma lstrip_clean (s : string) : all_chars clean s = true -> Text.lstrip s = s.
Proof.
  destruct s as [|c r]; cbn; [reflexivity|].
  intros H. apply andb_true_iff in H as [Hc _].
  destruct (clean_inv c Hc) as (-> & _). reflexivity.
Qed.

Lemma rstrip_clean (s : string) : all_chars clean s = true -> Text.rstrip s = s.
Proof.
  induction s as [|c r IH]; cbn; [reflexivity|].
  intros H. apply andb_true_iff in H as [Hc Hr]. rewrite (IH Hr).
  destruct r; [|reflexivity].
  destruct (clean_inv c Hc) as (-> & _). reflexivity.
Qed.

Lemma remove_underscore_clean (s : string) :
  all_chars clean s = true -> Text.remove_char "_" s = s.
Proof.
  induction s as [|c r IH]; cbn; [reflexivity|].
  intros H. apply andb_true_iff in H as [Hc Hr]. rewrite (IH Hr).
  destruct (clean_inv c Hc) as (_ & -> & _). reflexivity.
Qed.

Lemma lower_clean (s : string) : all_chars clean s = true -> Text.lower s = s.
Proof.
  unfold Text.lower.
  induction s as [|c r IH]; cbn [all_chars Text.map_string]; [reflexivity|].
  intros H. apply andb_true_iff in H as [Hc Hr]. rewrite (IH Hr).
  destruct (clean_inv c Hc) as (_ & _ & ->). reflexivity.
Qed.

(** On text made of such characters [Decimal] starts to parse at once. *)
Lemma normalise_clean (s : string) :
  all_chars clean s = true ->
  Text.lower (Text.remove_char "_" (Text.strip s)) = s.
Proof.
  intros H. unfold Text.strip.
  rewrite (lstrip_clean _ H), (rstrip_clean _ H), (remove_underscore_clean _ H).
  apply lower_clean, H.
Qed.

Lemma span_digits_app (ds rest : string) :
  all_chars Text.is_digit ds = true ->
  starts_with_digit rest = false ->
  Dec.span_digits (ds ++ rest) = (ds, rest).
Proof.
  intros Hd Hr. induction ds as [|c r IH]; cbn [append].
  - destruct rest as [|c r]; [reflexivity|]. cbn in *. rewrite Hr. reflexivity.
  - cbn in *. apply andb_true_iff in Hd as [Hc Hd]. rewrite Hc, (IH Hd). reflexivity.
Qed.

Lemma append_empty (s : string) : s ++ "" = s.
Proof. induction s; cbn; congruence. Qed.

Lemma parse_sign_text (neg : bool) (s : string) :
  match s with String c _ => negb (Ascii.eqb c "-") && negb (Ascii.eqb c "+") | _ => true end = true ->
  Dec.parse_sign (sign_text neg ++ s) = (neg, s).
Proof.
  destruct neg; [reflexivity|]. cbn [sign_text append].
  destruct s as [|c r]; [reflexivity|].
  rewrite andb_true_iff, !negb_true_iff. intros [H1 H2].
  apply Ascii.eqb_neq in H1, H2. unfold Dec.parse_sign.
  destruct c as [[|] [|] [|] [|] [|] [|] [|] [|]]; try reflexivity; congruence.
Qed.


Lemma decimal_of_digits (neg : bool) (s : string) :
  all_chars Text.is_digit s = true ->
  s <> "" ->
  Dec.of_string (sign_text neg ++ s) = Some (DNum neg (Dec.digits_value 0 s) 0).
Proof.
  intros Hd Hne. unfold Dec.of_string.
  assert (Hc : all_chars clean (sign_text neg ++ s) = true).
  { rewrite all_chars_app, (all_chars_impl _ _ _ digit_clean Hd). destruct neg; reflexivity. }
  rewrite (normalise_clean _ Hc).
  rewrite parse_sign_text.
  - unfold Dec.parse_finite.
    rewrite <- (append_empty s) at 1.
    rewrite (span_digits_app s "" Hd eq_refl).
    rewrite append_empty. destruct s; [congruence|]. reflexivity.
  - destruct s as [|c r]; [reflexivity|].
    cbn in Hd. apply andb_true_iff in Hd as [Hd _].
    destruct c as [[|] [|] [|] [|] [|] [|] [|] [|]]; vm_compute in Hd;
      try discriminate Hd; reflexivity.
Qed.

Lemma string_of_uint_digits (u : Init.Decimal.uint) :
  all_chars Text.is_digit (NilEmpty.string_of_uint u) = true.
Proof. induction u; cbn; auto. Qed.

Lemma digits_value_of_lu (u l : Init.Decimal.uint) :
  Dec.digits_value (DecimalPos.Unsigned.of_lu l) (NilEmpty.string_of_uint u)
  = DecimalPos.Unsigned.of_lu (Init.Decimal.revapp u l).
Proof.
  revert l. induction u; intros l; cbn [NilEmpty.string_of_uint Dec.digits_value Init.Decimal.revapp];
    [reflexivity| ..];
    rewrite <- IHu; f_equal; cbn [DecimalPos.Unsigned.of_lu];
    match goal with
    | |- context [Text.digit_val ?c] =>
        let v := eval vm_compute in (Text.digit_val c) in
        change (Text.digit_val c) with v
    end; lia.
Qed.

Lemma digits_value_of_uint (u : Init.Decimal.uint) :
  Dec.digits_value 0 (NilEmpty.string_of_uint u) = N.of_uint u.
Proof.
  change 0%N with (DecimalPos.Unsigned.of_lu Init.Decimal.Nil).
  rewrite digits_value_of_lu. unfold N.of_uint.
  rewrite DecimalPos.Unsigned.of_uint_alt. reflexivity.
Qed.

Lemma str_of_positive (p : positive) :
  NilZero.string_of_uint (Pos.to_uint p) = NilEmpty.string_of_uint (Pos.to_uint p) /\
  NilEmpty.string_of_uint (Pos.to_uint p) <> "" /\
  Dec.digits_value 0 (NilEmpty.string_of_uint (Pos.to_uint p)) = Npos p.
Proof.
  pose proof (DecimalPos.Unsigned.to_uint_nonnil p) as H.
  repeat split.
  - destruct (Pos.to_uint p); congruence || reflexivity.
  - destruct (Pos.to_uint p); cbn; congruence.
  - rewrite digits_value_of_uint.
    change (N.of_uint (Pos.to_uint p)) with (N.of_uint (N.to_uint (Npos p))).
    apply DecimalN.Unsigned.of_to.
Qed.

(** The text of an [int] is read back as that integer. *)
Lemma decimal_of_int (z : Z) :
  Dec.of_string (Py.str (JInt z)) = Some (DNum (z <? 0) (Z.abs_N z) 0).
Proof.
  cbn [Py.str Py.repr]. unfold Text.of_Z.
  destruct z as [|p|p]; [reflexivity| |];
    destruct (str_of_positive p) as (E1 & E2 & E3);
    cbn [Z.to_int NilZero.string_of_int Z.ltb Z.compare Z.abs_N]; rewrite E1.
  - pose proof (decimal_of_digits false _ (string_of_uint_digits _) E2) as H.
    cbn [sign_text append] in H. rewrite H, E3. reflexivity.
  - pose proof (decimal_of_digits true _ (string_of_uint_digits _) E2) as H.
    cbn [sign_text append] in H. rewrite H, E3. reflexivity.
Qed.

(** An integer price is kept as it is when it is not negative, and refused
    when it is. *)
Lemma check_price_int (z : Z) :
  check_price (JInt z) =
    if z <? 0 then inl (error_response "Price cannot be negative" 400)
    else inr (DNum false (Z.abs_N z) 0).
Proof.
  unfold check_price. rewrite decimal_of_int. cbn [Dec.lt_zero].
  destruct z as [|p|p]; reflexivity.
Qed.

(** An infinite price is a [Decimal] that is not below zero: the price
    check lets it through. *)
Lemma infinite_price_accepted :
  check_price (JStr "Infinity") = inr (DInf false) /\
  check_price (JFloat (FInf false)) = inr (DInf false).
Proof. split; reflexivity. Qed.

(** ** Numbers written with an exponent *)






(** ** Messages that mention sku *)

Lemma lower_char_sku (a : ascii) :
  Ascii.eqb (Text.lower_char a) "s" = (Ascii.eqb a "s" || Ascii.eqb a "S") /\
  Ascii.eqb (Text.lower_char a) "k" = (Ascii.eqb a "k" || Ascii.eqb a "K") /\
  Ascii.eqb (Text.lower_char a) "u" = (Ascii.eqb a "u" || Ascii.eqb a "U").
Proof.
  destruct a as [[|] [|] [|] [|] [|] [|] [|] [|]]; vm_compute; repeat split.
Qed.

Lemma starts_with_sku (s : string) :
  Text.starts_with "sku" (Text.lower s) = true <->
  exists a b c post, s = String a (String b (String c post)) /\ spells_sku a b c = true.
Proof.
  unfold Text.lower, spells_sku. split.
  - destruct s as [|a [|b [|c post]]]; cbn [Text.map_string Text.starts_with];
      rewrite ?andb_false_r; try discriminate.
    destruct (lower_char_sku a) as (Ha & _).
    destruct (lower_char_sku b) as (_ & Hb & _).
    destruct (lower_char_sku c) as (_ & _ & Hc).
    rewrite (Ascii.eqb_sym "s"), (Ascii.eqb_sym "k"), (Ascii.eqb_sym "u"), Ha, Hb, Hc.
    rewrite andb_true_r. intros H. exists a, b, c, post. split; [reflexivity|].
    rewrite <- andb_assoc. exact H.
  - intros (a & b & c & post & -> & H). cbn [Text.map_string Text.starts_with].
    destruct (lower_char_sku a) as (Ha & _).
    destruct (lower_char_sku b) as (_ & Hb & _).
    destruct (lower_char_sku c) as (_ & _ & Hc).
    rewrite (Ascii.eqb_sym "s"), (Ascii.eqb_sym "k"), (Ascii.eqb_sym "u"), Ha, Hb, Hc.
    rewrite andb_true_r, andb_assoc. exact H.
Qed.

Lemma contains_step (sub : string) (c : ascii) (r : string) :
  Text.contains sub (String c r) = Text.starts_with sub (String c r) || Text.contains sub r.
Proof. reflexivity. Qed.

(** The test of the handler is true exactly of the messages in which the
    letters s, k, u follow one another. *)
Lemma contains_sku_iff (msg : string) :
  Text.contains "sku" (Text.lower msg) = true <-> mentions_sku msg.
Proof.
  unfold mentions_sku. induction msg as [|x r IH].
  - split; [discriminate|]. intros (pre & a & b & c & post & H & _).
    destruct pre; discriminate H.
  - change (Text.lower (String x r)) with (String (Text.lower_char x) (Text.lower r)).
    rewrite contains_step, orb_true_iff.
    change (String (Text.lower_char x) (Text.lower r)) with (Text.lower (String x r)).
    rewrite starts_with_sku, IH. split.
    + intros [(a & b & c & post & E & H) | (pre & a & b & c & post & E & H)].
      * exists "", a, b, c, post. split; [exact E|exact H].
      * exists (String x pre), a, b, c, post. split; [|exact H]. cbn. rewrite E. reflexivity.
    + intros (pre & a & b & c & post & E & H). destruct pre as [|y pre]; cbn in E.
      * left. exists a, b, c, post. split; [exact E|exact H].
      * injection E as -> E. right. exists pre, a, b, c, post. split; [exact E|exact H].
Qed.

Lemma contains_sku_false (msg : string) :
  ~ mentions_sku msg -> Text.contains "sku" (Text.lower msg) = false.
Proof.
  intros H. destruct (Text.contains "sku" (Text.lower msg)) eqn:E; [|reflexivity].
  exfalso. apply H, contains_sku_iff, E.
Qed.

(** ** The claims *)

(** C1. Atomicity of the two-row write. Every request ends with a
    response. Either the response is 201 and the committed rows are the
    rows from before with exactly one Product and one Inventory added, the
    Inventory referring to the Product; or the response is not 201 and the
    committed rows are the rows from before, whatever made the request
    fail (validation, the warehouse lookup, an integrity error or any other
    exception of the persistence layer). In either case, if before the
    request every Product had an Inventory and every Inventory a Product,
    the same holds after it. *)
Theorem product_and_inventory_atomic (b : Backend) (db : Tables) (d : json) :
  exists resp w,
    create_product b db d = (Ok resp, w) /\
    ((status resp = 201 /\
      exists p i,
        stored w = {| warehouses := warehouses db;
                      products := products db ++ [p];
                      inventories := inventories db ++ [i] |} /\
        same_id (i_product_id i) (p_id p) = true)
     \/ (status resp <> 201 /\ stored w = db)) /\
    (paired db = true -> paired (stored w) = true).
Proof.
  destruct (create_product b db d) as [r w] eqn:E.
  run E; finish E; eexists; eexists; (split; [reflexivity|]);
    cbn [stored status error_response created_response products inventories warehouses].
  all: try (split; [right; split; [discriminate|reflexivity] | trivial]).
  - split; [right; split; [|reflexivity] | trivial].
    erewrite check_price_status by eassumption. discriminate.
  - split.
    + left. split; [reflexivity|]. eexists; eexists; split; [reflexivity|].
      apply same_id_refl.
    + intros Hp. apply paired_extend; [exact Hp|apply same_id_refl].
Qed.

Lemma product_and_inventory_atomic_witness :
  paired one_warehouse = true /\
  paired (stored (snd (create_product quiet_backend one_warehouse widget_payload))) = true.
Proof.
  split; [reflexivity|].
  destruct (product_and_inventory_atomic quiet_backend one_warehouse widget_payload)
    as (resp & w & E & _ & Hp).
  rewrite E. apply Hp. reflexivity.
Defined.

(** C2, as stated, fails: a payload with all five fields non-null, a
    parseable non-negative price, a non-negative integer quantity and an
    existing warehouse is answered 500 when its name is a number, and 409
    when its sku is already stored. *)
Lemma valid_payload_not_always_created :
  (validated numeric_name_payload = true /\
   lookup quiet_backend one_warehouse numeric_name_payload = Ok (Some 1) /\
   field numeric_name_payload "initial_quantity" = JInt 10 /\
   fst (create_product quiet_backend one_warehouse numeric_name_payload) =
     Ok (error_response "Internal server error" 500)) /\
  (validated widget_payload = true /\
   lookup quiet_backend widget_stored widget_payload = Ok (Some 1) /\
   field widget_payload "initial_quantity" = JInt 10 /\
   fst (create_product quiet_backend widget_stored widget_payload) =
     Ok (error_response "SKU already exists" 409)).
Proof. repeat split; vm_compute; reflexivity. Qed.

(** C2, amended. Success postcondition: for every mapping whose name and
    sku are strings, whose price parses to a non-negative decimal, whose
    initial_quantity is a non-negative integer and whose warehouse_id is
    the id of an existing warehouse, the name, the sku and the text of the
    price being ASCII text, if the normalized sku is not stored yet and
    the persistence layer raises no error, [create_product] answers 201
    with the newly assigned product_id and the sku trimmed and upper-cased;
    the stored Product has the trimmed name, the normalized sku and the
    parsed price, and the Inventory row carries the id of the Product, the
    same warehouse_id and the validated quantity. A price beyond the
    bounds of [Decimal] does not parse. *)
Theorem valid_payload_creates (b : Backend) (db : Tables)
        (items : list (string * json)) (name sku : string) (pv : json)
        (price : Decimal) (wh q : Z) :
  payload_fields items name sku pv (JInt wh) (JInt q) ->
  ascii_payload (JObj items) = true ->
  check_price pv = inr price ->
  0 <= q ->
  In wh (warehouses db) ->
  Db.sku_taken (Text.upper (Text.strip sku)) db = false ->
  (forall op, outage b op = None) ->
  (forall op, violation b op = None) ->
  let product := {| p_id := Some (Db.next_id (map p_id (products db)));
                    p_name := Text.strip name;
                    p_sku := Text.upper (Text.strip sku);
                    p_price := price;
                    p_warehouse_id := JInt wh |} in
  let inventory := {| i_id := Some (Db.next_id (map i_id (inventories db)));
                      i_product_id := p_id product;
                      i_warehouse_id := JInt wh;
                      i_quantity := JInt q |} in
  let db' := {| warehouses := warehouses db;
                products := products db ++ [product];
                inventories := inventories db ++ [inventory] |} in
  create_product b db (JObj items) =
    (Ok {| status := 201;
           body := [("message", JStr "Product created successfully");
                    ("product_id", JInt (Db.next_id (map p_id (products db))));
                    ("sku", JStr (Text.upper (Text.strip sku)))] |},
     {| stored := db'; view := db';
        objects := [OProduct product; OInventory inventory];
        in_transaction := false; log := [];
        trace := [OpGet; OpBegin; OpAdd; OpFlush; OpAdd; OpCommit] |}).
Proof.
  intros W _ Hc Hq Hw Hfresh Hout Hvio product inventory db'.
  pose proof (quantity_int q Hq) as Hb.
  destruct (payload_fields_shaped _ _ _ _ _ _ W (check_price_not_none _ _ Hc)
              eq_refl eq_refl) as (S & F1 & F2 & F3 & F4 & F5).
  use_shape S. rewrite ?F1, ?F2, ?F3, ?F4, ?F5 in *.
  pose proof (find_warehouse_int b db wh Hw) as Hf.
  pose proof (Hout OpGet). pose proof (Hout OpBegin). pose proof (Hout OpFlush).
  pose proof (Hout OpCommit). pose proof (Hvio OpFlush). pose proof (Hvio OpCommit).
  destruct (create_product b db (JObj items)) as [r w] eqn:E.
  run E. symmetry. exact E.
Qed.

(** The example of the specification: the Widget payload against an
    existing warehouse 1. The price 1e9999999999999999999 is refused. *)
Lemma valid_payload_creates_witness :
  fst (create_product quiet_backend one_warehouse widget_payload) =
    Ok {| status := 201;
          body := [("message", JStr "Product created successfully");
                   ("product_id", JInt 1); ("sku", JStr "ABC-1")] |} /\
  stored (snd (create_product quiet_backend one_warehouse widget_payload)) =
    {| warehouses := [1];
       products := [{| p_id := Some 1; p_name := "Widget"; p_sku := "ABC-1";
                       p_price := DNum false 999 (-2); p_warehouse_id := JInt 1 |}];
       inventories := [{| i_id := Some 1; i_product_id := Some 1;
                          i_warehouse_id := JInt 1; i_quantity := JInt 10 |}] |} /\
  check_price (JStr "1e9999999999999999999") =
    inl (error_response "Invalid price format" 400).
Proof.
  assert (H : payload_fields widget_items "Widget" " abc-1 " (JStr "9.99") (JInt 1) (JInt 10)).
  { constructor; reflexivity. }
  unfold widget_payload.
  rewrite (valid_payload_creates quiet_backend one_warehouse widget_items
             "Widget" " abc-1 " (JStr "9.99") (DNum false 999 (-2)) 1 10 H).
  - repeat split; vm_compute; reflexivity.
  - reflexivity.
  - vm_compute. reflexivity.
  - lia.
  - left. reflexivity.
  - reflexivity.
  - intros op. reflexivity.
  - intros op. reflexivity.
Defined.

(** C4 fails on the code for a boolean: [True] is an instance of [int], so
    the payload whose initial_quantity is [true] passes the check, is
    answered 201 and stores the boolean as the quantity. *)
Theorem boolean_quantity_accepted :
  bad_quantity (field boolean_quantity_payload "initial_quantity") = false /\
  fst (create_product quiet_backend one_warehouse boolean_quantity_payload) =
    Ok (created_response (Some 1) "ABC-1") /\
  inventories (stored (snd (create_product quiet_backend one_warehouse
                              boolean_quantity_payload))) =
    [{| i_id := Some 1; i_product_id := Some 1; i_warehouse_id := JInt 1;
        i_quantity := JBool true |}].
Proof. repeat split; vm_compute; reflexivity. Qed.



(** C6. Warehouse existence. For a payload that passed the four field
    checks, if the lookup of its warehouse_id answers that there is no such
    warehouse, the handler answers 404 "Warehouse not found"; the lookup is
    the only call made to the persistence layer, no transaction was begun
    and no row was written. And on every path of the handler the
    warehouses are the ones from before, among the committed rows and
    among the rows the session sees. *)
Theorem warehouse_must_exist :
  (forall (b : Backend) (db : Tables) (d : json),
      validated d = true ->
      lookup b db d = Ok None ->
      create_product b db d =
        (Ok (error_response "Warehouse not found" 404),
         {| stored := db; view := db; objects := []; in_transaction := false;
            log := []; trace := [OpGet] |})) /\
  (forall (b : Backend) (db : Tables) (d : json),
      let w := snd (create_product b db d) in
      warehouses (stored w) = warehouses db /\ warehouses (view w) = warehouses db).
Proof.
  split.
  - intros b db d Hv Hl.
    destruct (validated_inv d Hv) as (Ht & Hloop & (price & Hp) & Hq).
    destruct (passes_required_shaped d Ht Hloop) as (items & S). use_shape S.
    destruct (lookup_inv b db d None Hl) as (Ho & Hf).
    destruct (create_product b db d) as [r w] eqn:E.
    run E. symmetry; exact E.
  - intros b db d w. subst w.
    destruct (create_product b db d) as [r w] eqn:E.
    run E; finish E; cbn; auto.
Qed.

(** Warehouse 2 does not exist. *)
Lemma warehouse_must_exist_witness :
  create_product quiet_backend one_warehouse unknown_warehouse_payload =
    (Ok (error_response "Warehouse not found" 404),
     {| stored := one_warehouse; view := one_warehouse; objects := [];
        in_transaction := false; log := []; trace := [OpGet] |}).
Proof.
  apply (proj1 warehouse_must_exist quiet_backend one_warehouse unknown_warehouse_payload);
    vm_compute; reflexivity.
Defined.

(** C7, as stated, fails: the empty mapping is a mapping in which every
    required key is absent, and it is answered "No JSON data provided",
    not "Missing required field: name". *)
Lemma empty_mapping_not_reported_missing :
  find (absent_or_null []) required_fields = Some "name" /\
  create_product quiet_backend one_warehouse (JObj []) =
    (Ok (error_response "No JSON data provided" 400), fresh_session one_warehouse) /\
  error_response "No JSON data provided" 400 <>
    error_response "Missing required field: name" 400.
Proof. repeat split; try (vm_compute; reflexivity). discriminate. Qed.

(** C7, amended. Missing-field reporting order: for every payload that is
    a non-empty mapping, if one of the keys name, sku, price, warehouse_id,
    initial_quantity is absent or null, the handler answers 400 "Missing
    required field: <field>" for the first such key in that order, and
    reaches no later validation step and no call to the persistence
    layer. *)
Theorem missing_field_reported (b : Backend) (db : Tables)
        (items : list (string * json)) (field : string) :
  items <> [] ->
  find (absent_or_null items) required_fields = Some field ->
  create_product b db (JObj items) =
    (Ok (error_response ("Missing required field: " ++ field) 400), fresh_session db).
Proof.
  intros Hne Hf.
  destruct (create_product b db (JObj items)) as [r w] eqn:E.
  exec_in E.
  rewrite first_missing_dict, Hf in E.
  destruct items; [contradiction|].
  exec_in E. cbn [Py.truthy negb] in E. symmetry; exact E.
Qed.

(** A payload without sku and without warehouse_id is reported for sku. *)
Lemma missing_field_reported_witness :
  create_product quiet_backend one_warehouse (JObj two_missing_items) =
    (Ok (error_response "Missing required field: sku" 400), fresh_session one_warehouse).
Proof.
  apply (missing_field_reported quiet_backend one_warehouse two_missing_items "sku").
  - discriminate.
  - reflexivity.
Defined.

(** C8, as stated, fails: a non-empty array and a non-empty string are
    answered "Missing required field: name", and a number is answered
    500. *)
Lemma non_mapping_payload_not_rejected :
  create_product quiet_backend one_warehouse (JArr [JInt 1]) =
    (Ok (error_response "Missing required field: name" 400), fresh_session one_warehouse) /\
  create_product quiet_backend one_warehouse (JStr "hello") =
    (Ok (error_response "Missing required field: name" 400), fresh_session one_warehouse) /\
  fst (create_product quiet_backend one_warehouse (JInt 5)) =
    Ok (error_response "Internal server error" 500).
Proof. repeat split; vm_compute; reflexivity. Qed.

(** C8, amended. Payload-presence check: for every request whose payload
    is absent or empty (None, false, zero, the empty string, the empty
    array or the empty mapping), the handler answers 400 "No JSON data
    provided" before any other validation and any call to the persistence
    layer. *)
Theorem empty_payload_rejected (b : Backend) (db : Tables) (d : json) :
  Py.truthy d = false ->
  create_product b db d =
    (Ok (error_response "No JSON data provided" 400), fresh_session db).
Proof.
  intros H.
  destruct (create_product b db d) as [r w] eqn:E.
  exec_in E. rewrite H in E. exec_in E. symmetry. exact E.
Qed.

Lemma empty_payload_rejected_witness :
  create_product quiet_backend one_warehouse JNull =
    (Ok (error_response "No JSON data provided" 400), fresh_session one_warehouse) /\
  create_product quiet_backend one_warehouse (JArr []) =
    (Ok (error_response "No JSON data provided" 400), fresh_session one_warehouse).
Proof.
  split.
  - apply (empty_payload_rejected quiet_backend one_warehouse JNull). reflexivity.
  - apply (empty_payload_rejected quiet_backend one_warehouse (JArr [])). reflexivity.
Defined.

(** The payloads the presence check refuses. *)
Lemma falsy_values (d : json) :
  Py.truthy d = false <->
  d = JNull \/ d = JBool false \/ d = JInt 0 \/
  (exists neg e, d = JFloat (FNum neg 0 e)) \/
  d = JStr "" \/ d = JArr [] \/ d = JObj [].
Proof.
  split.
  - destruct d as [ | [|] | z | f | s | l | items]; cbn; try discriminate; auto.
    + destruct (Z.eqb_spec z 0); [subst; auto|discriminate].
    + destruct f as [ | neg | neg n e]; cbn; try discriminate.
      destruct (N.eqb_spec n 0); [subst; eauto 10|discriminate].
    + destruct s; [auto 10|discriminate].
    + destruct l; [auto 10|discriminate].
    + destruct items; [auto 10|discriminate].
  - intros [-> | [-> | [-> | [(neg & e & ->) | [-> | [-> | ->]]]]]]; reflexivity.
Qed.

(** C9. Generic failure path. Whenever the body of the [try] raises an
    exception that is not an [IntegrityError], the handler does not let it
    escape: the transaction is rolled back ([rollback] is the last call,
    the rows are the committed rows from before), one line with the
    message of the exception goes to the server log, and the caller gets
    exactly 500 "Internal server error", a body that does not depend on
    the exception. And on every path of the handler a response is returned
    with no transaction left open: when [begin] was called, the last call
    is [commit] or [rollback]. *)
Theorem generic_failure_path :
  (forall (b : Backend) (db : Tables) (d : json) (e : exn) (w0 : World),
      try_block b d (fresh_session db) = (Raise e, w0) ->
      is_integrity e = false ->
      create_product b db d =
        (Ok (error_response "Internal server error" 500),
         {| stored := db; view := db; objects := []; in_transaction := false;
            log := ["Error creating product: " ++ exn_message e];
            trace := trace w0 ++ [OpRollback] |})) /\
  (forall (b : Backend) (db : Tables) (d : json),
      exists r w,
        create_product b db d = (Ok r, w) /\
        in_transaction w = false /\
        (In OpBegin (trace w) ->
         last (trace w) OpBegin = OpCommit \/ last (trace w) OpBegin = OpRollback)).
Proof.
  split.
  - intros b db d e w0 H He.
    destruct (try_block_raise b db d e w0 H) as (Hs & Hl).
    unfold create_product, create_product_m, try_except. rewrite H.
    unfold handle. rewrite He.
    cbv beta iota zeta delta [bind ret Db.rollback Db.record_call logging_error].
    cbn [stored view objects in_transaction log trace].
    rewrite Hs, Hl. reflexivity.
  - intros b db d.
    destruct (create_product b db d) as [r w] eqn:E.
    run E; finish E; eexists; eexists; (split; [reflexivity|]);
      cbn [in_transaction trace last app]; (split; [reflexivity|]);
      cbn [In]; intuition discriminate.
Qed.

Lemma generic_failure_path_witness :
  create_product failing_commit one_warehouse widget_payload =
    (Ok (error_response "Internal server error" 500),
     {| stored := one_warehouse; view := one_warehouse; objects := [];
        in_transaction := false;
        log := ["Error creating product: server closed the connection"];
        trace := [OpGet; OpBegin; OpAdd; OpFlush; OpAdd; OpCommit; OpRollback] |}).
Proof.
  rewrite (proj1 generic_failure_path failing_commit one_warehouse widget_payload
             (OperationalError "server closed the connection")
             (snd (try_block failing_commit widget_payload (fresh_session one_warehouse)))).
  - reflexivity.
  - vm_compute. reflexivity.
  - reflexivity.
Defined.

(** C10. For every payload that passes the four field checks and whose
    warehouse is found, but whose name or sku is not a string, the handler
    answers 500 "Internal server error", not a 400: the transaction was
    begun, the call of [strip] on the value raises [AttributeError] inside
    the [try], the generic clause rolls back and logs it, and no row is
    written. (When [begin] itself fails, the answer is the same 500.) *)
Theorem non_string_name_or_sku (b : Backend) (db : Tables) (d : json) (wh : Z) :
  validated d = true ->
  lookup b db d = Ok (Some wh) ->
  is_string (field d "name") && is_string (field d "sku") = false ->
  let v := if is_string (field d "name") then field d "sku" else field d "name" in
  exists msg,
    create_product b db d =
      (Ok (error_response "Internal server error" 500),
       {| stored := db; view := db; objects := []; in_transaction := false;
          log := ["Error creating product: " ++ msg];
          trace := [OpGet; OpBegin; OpRollback] |}) /\
    (outage b OpBegin = None ->
     msg = PyOps.no_attribute v "strip" /\
     try_block b d (fresh_session db) =
       (Raise (AttributeError (PyOps.no_attribute v "strip")),
        {| stored := db; view := db; objects := []; in_transaction := true;
           log := []; trace := [OpGet; OpBegin] |})).
Proof.
  intros Hv Hl Hs v.
  destruct (validated_inv d Hv) as (Ht & Hloop & (price & Hp) & Hq).
  destruct (passes_required_shaped d Ht Hloop) as (items & S). use_shape S.
  destruct (lookup_inv b db d _ Hl) as (Ho & Hf).
  destruct (create_product b db d) as [r w] eqn:E.
  destruct (try_block b d (fresh_session db)) as [r' w'] eqn:E'.
  destruct (outage b OpBegin) as [m|] eqn:Hb.
  - run E. finish E. eexists. split; [reflexivity|discriminate].
  - destruct (field d "name") eqn:En; cbn [is_string andb] in Hs, v;
      try (run E; run E'; finish E; finish E'; eexists; split; [reflexivity|];
           intros _; split; reflexivity).
    destruct (field d "sku") eqn:Es; cbn [is_string] in Hs; try discriminate;
      subst v; run E; run E'; finish E; finish E'; eexists; (split; [reflexivity|]);
      intros _; split; reflexivity.
Qed.

(** The name 7. *)
Lemma non_string_name_or_sku_witness :
  fst (create_product quiet_backend one_warehouse numeric_name_payload) =
    Ok (error_response "Internal server error" 500) /\
  log (snd (create_product quiet_backend one_warehouse numeric_name_payload)) =
    ["Error creating product: 'int' object has no attribute 'strip'"].
Proof.
  destruct (non_string_name_or_sku quiet_backend one_warehouse numeric_name_payload 1
              eq_refl eq_refl eq_refl) as (msg & E & H).
  destruct (H eq_refl) as (-> & _).
  rewrite E. split; reflexivity.
Defined.

(** ** The normal form of a sku *)

Lemma upper_char_facts (c : ascii) :
  Text.is_space (Text.upper_char c) = Text.is_space c /\
  Text.upper_char (Text.upper_char c) = Text.upper_char c /\
  Text.upper_char (Text.lower_char c) = Text.upper_char c.
Proof.
  destruct c as [[|] [|] [|] [|] [|] [|] [|] [|]]; vm_compute; repeat split.
Qed.

Lemma upper_idempotent (s : string) : Text.upper (Text.upper s) = Text.upper s.
Proof.
  unfold Text.upper. induction s as [|c r IH]; cbn [Text.map_string]; [reflexivity|].
  rewrite IH. destruct (upper_char_facts c) as (_ & -> & _). reflexivity.
Qed.

Lemma upper_lower (s : string) : Text.upper (Text.lower s) = Text.upper s.
Proof.
  unfold Text.upper, Text.lower.
  induction s as [|c r IH]; cbn [Text.map_string]; [reflexivity|].
  rewrite IH. destruct (upper_char_facts c) as (_ & _ & ->). reflexivity.
Qed.

Lemma lstrip_upper (s : string) : Text.lstrip (Text.upper s) = Text.upper (Text.lstrip s).
Proof.
  unfold Text.upper. induction s as [|c r IH]; cbn [Text.map_string Text.lstrip]; [reflexivity|].
  destruct (upper_char_facts c) as (-> & _).
  destruct (Text.is_space c); [exact IH|reflexivity].
Qed.

Lemma rstrip_upper (s : string) : Text.rstrip (Text.upper s) = Text.upper (Text.rstrip s).
Proof.
  unfold Text.upper. induction s as [|c r IH]; cbn [Text.map_string Text.rstrip]; [reflexivity|].
  rewrite IH. destruct (upper_char_facts c) as (Hs & _).
  destruct (Text.rstrip r) as [|a r']; cbn [Text.map_string].
  - rewrite Hs. destruct (Text.is_space c); reflexivity.
  - reflexivity.
Qed.

Lemma strip_upper (s : string) : Text.strip (Text.upper s) = Text.upper (Text.strip s).
Proof. unfold Text.strip. rewrite lstrip_upper, rstrip_upper. reflexivity. Qed.

Lemma lstrip_no_leading (s : string) : no_leading_space (Text.lstrip s) = true.
Proof.
  induction s as [|c r IH]; cbn [Text.lstrip]; [reflexivity|].
  destruct (Text.is_space c) eqn:E; [exact IH|]. cbn. rewrite E. reflexivity.
Qed.

Lemma lstrip_fixed (s : string) : no_leading_space s = true -> Text.lstrip s = s.
Proof.
  destruct s as [|c r]; cbn; [reflexivity|].
  intros H. apply negb_true_iff in H. rewrite H. reflexivity.
Qed.

Lemma rstrip_no_leading (s : string) :
  no_leading_space s = true -> no_leading_space (Text.rstrip s) = true.
Proof.
  destruct s as [|c r]; cbn [Text.rstrip no_leading_space]; [reflexivity|].
  intros H. destruct (Text.rstrip r).
  - apply negb_true_iff in H. rewrite H. cbn. rewrite H. reflexivity.
  - cbn. exact H.
Qed.

Lemma rstrip_idempotent (s : string) : Text.rstrip (Text.rstrip s) = Text.rstrip s.
Proof.
  induction s as [|c r IH]; cbn [Text.rstrip]; [reflexivity|].
  destruct (Text.rstrip r) as [|a r'] eqn:E.
  - destruct (Text.is_space c) eqn:Ec; [reflexivity|].
    cbn [Text.rstrip]. rewrite Ec. reflexivity.
  - cbn [Text.rstrip] in *. 
    change (match Text.rstrip r' with
            | "" => if Text.is_space a then "" else String a ""
            | String a0 s0 => String a (String a0 s0)
            end) with (Text.rstrip (String a r')) in *.
    rewrite IH. reflexivity.
Qed.

Lemma strip_idempotent (s : string) : Text.strip (Text.strip s) = Text.strip s.
Proof.
  unfold Text.strip.
  rewrite (lstrip_fixed (Text.rstrip (Text.lstrip s))).
  - apply rstrip_idempotent.
  - apply rstrip_no_leading, lstrip_no_leading.
Qed.

Lemma rstrip_spaces (r : string) : all_chars Text.is_space r = true -> Text.rstrip r = "".
Proof.
  induction r as [|c r IH]; cbn [all_chars Text.rstrip]; [reflexivity|].
  intros H. apply andb_true_iff in H as [Hc Hr]. rewrite (IH Hr), Hc. reflexivity.
Qed.

Lemma rstrip_app_spaces (s r : string) :
  all_chars Text.is_space r = true -> Text.rstrip (s ++ r) = Text.rstrip s.
Proof.
  intros H. induction s as [|c s IH]; cbn [append Text.rstrip].
  - apply rstrip_spaces, H.
  - rewrite IH. reflexivity.
Qed.

Lemma lstrip_spaces_app (l s : string) :
  all_chars Text.is_space l = true -> Text.lstrip (l ++ s) = Text.lstrip s.
Proof.
  induction l as [|c l IH]; cbn [all_chars append Text.lstrip]; [reflexivity|].
  intros H. apply andb_true_iff in H as [Hc Hl]. rewrite Hc. apply IH, Hl.
Qed.

Lemma lstrip_spaces (r : string) : all_chars Text.is_space r = true -> Text.lstrip r = "".
Proof.
  induction r as [|c r IH]; cbn [all_chars Text.lstrip]; [reflexivity|].
  intros H. apply andb_true_iff in H as [Hc Hr]. rewrite Hc. apply IH, Hr.
Qed.

Lemma strip_app_spaces (s r : string) :
  all_chars Text.is_space r = true -> Text.strip (s ++ r) = Text.strip s.
Proof.
  intros H. unfold Text.strip.
  induction s as [|c s IH]; cbn [append Text.lstrip].
  - rewrite (lstrip_spaces _ H). reflexivity.
  - destruct (Text.is_space c); [exact IH|].
    change (String c (s ++ r)) with (String c s ++ r).
    apply rstrip_app_spaces, H.
Qed.

(** X12. The form [strip().upper()] in which the handler stores a sku is
    a normal form: normalising twice is normalising once, whitespace
    around a sku does not change its normal form, and two skus that are
    equal up to the case of their letters have the same normal form. *)
Theorem normalize_sku_canonical :
  (forall s, normalize_sku (normalize_sku s) = normalize_sku s) /\
  (forall l s r,
      all_chars Text.is_space l = true -> all_chars Text.is_space r = true ->
      normalize_sku (l ++ s ++ r) = normalize_sku s) /\
  (forall s t, Text.lower s = Text.lower t -> normalize_sku s = normalize_sku t).
Proof.
  unfold normalize_sku. repeat split.
  - intros s. rewrite strip_upper, strip_idempotent. apply upper_idempotent.
  - intros l s r Hl Hr. f_equal. unfold Text.strip at 1.
    rewrite (lstrip_spaces_app _ _ Hl). fold (Text.strip (s ++ r)).
    apply strip_app_spaces, Hr.
  - intros s t H. rewrite <- !strip_upper.
    rewrite <- (upper_lower s), <- (upper_lower t), H. reflexivity.
Qed.

(** ** Skus that differ in case and padding *)

Lemma same_letter_lower (a b : ascii) :
  same_letter a b = true -> Text.lower_char a = Text.lower_char b.
Proof.
  unfold same_letter, Text.lower_char, Text.code.
  destruct (N_of_ascii a) as [|p] eqn:Hx; destruct (N_of_ascii b) as [|q] eqn:Hy;
    pose proof (ascii_N_embedding a) as Ea; pose proof (ascii_N_embedding b) as Eb;
    rewrite Hx in Ea; rewrite Hy in Eb;
    rewrite !orb_true_iff, !andb_true_iff, !N.eqb_eq, !N.leb_le;
    intros [[H | ((H1 & H2) & H3)] | ((H1 & H2) & H3)]; try lia.
  - subst a b. reflexivity.
  - injection H as ->. subst a b. reflexivity.
  - destruct (N.leb_spec 65 (N.pos p)), (N.leb_spec (N.pos p) 90); try lia. cbn [andb].
    destruct (N.leb_spec 65 (N.pos q)), (N.leb_spec (N.pos q) 90); try lia; cbn [andb];
      rewrite <- H3; exact Eb.
  - destruct (N.leb_spec 65 (N.pos q)), (N.leb_spec (N.pos q) 90); try lia. cbn [andb].
    destruct (N.leb_spec 65 (N.pos p)), (N.leb_spec (N.pos p) 90); try lia; cbn [andb];
      rewrite <- H3; exact (eq_sym Ea).
Qed.

Lemma same_letters_lower (s t : string) :
  same_letters s t = true -> Text.lower s = Text.lower t.
Proof.
  unfold Text.lower. revert t. induction s as [|a s IH]; intros [|b t]; cbn; try discriminate.
  - reflexivity.
  - intros H. apply andb_true_iff in H as [H1 H2].
    rewrite (same_letter_lower _ _ H1), (IH _ H2). reflexivity.
Qed.

Lemma normalize_padded (l s r : string) :
  all_chars Text.is_space l = true -> all_chars Text.is_space r = true ->
  normalize_sku (l ++ s ++ r) = normalize_sku s.
Proof.
  intros Hl Hr. unfold normalize_sku. f_equal. unfold Text.strip at 1.
  rewrite (lstrip_spaces_app _ _ Hl). fold (Text.strip (s ++ r)).
  apply strip_app_spaces, Hr.
Qed.

Lemma normalize_same_letters (s t : string) :
  same_letters s t = true -> normalize_sku s = normalize_sku t.
Proof.
  intros H. unfold normalize_sku. rewrite <- !strip_upper.
  rewrite <- (upper_lower s), <- (upper_lower t), (same_letters_lower _ _ H). reflexivity.
Qed.

(** Skus that differ only in padding and case are stored as one sku. *)
Lemma same_sku_normalize (s t : string) :
  same_sku s t -> normalize_sku s = normalize_sku t.
Proof.
  intros (l1 & c1 & r1 & l2 & c2 & r2 & -> & -> & H1 & H2 & H3 & H4 & H).
  rewrite !normalize_padded by assumption. apply normalize_same_letters, H.
Qed.

(** ** The answer to an integrity error *)

(** C3 fails on the code: the 409 is not tied to the sku constraint. The
    sku ABC-1 is not stored, no Product is, and the insertion of the
    Product breaks a foreign key. The message of that error quotes the
    statement, in which sku is the name of a column; the test for the
    letters sku takes it for the uniqueness violation, and the handler
    answers 409 "SKU already exists" where the claim has 400 "Database
    constraint violation". *)
Theorem foreign_key_violation_answered_conflict :
  products one_warehouse = [] /\
  Db.sku_taken (normalize_sku " abc-1 ") one_warehouse = false /\
  violation foreign_key_backend OpFlush =
    Some "(sqlite3.IntegrityError) FOREIGN KEY constraint failed [SQL: INSERT INTO product (name, sku, price, warehouse_id) VALUES (?, ?, ?, ?)]" /\
  create_product foreign_key_backend one_warehouse widget_payload =
    (Ok (error_response "SKU already exists" 409),
     {| stored := one_warehouse; view := one_warehouse; objects := [];
        in_transaction := false; log := [];
        trace := [OpGet; OpBegin; OpAdd; OpFlush; OpRollback] |}).
Proof. repeat split; vm_compute; reflexivity. Qed.

(** X14. What the handler answers to an integrity error. Whenever an
    [IntegrityError] is raised inside the [try], the handler rolls the
    transaction back (the committed rows are the rows from before, the
    call to [rollback] ends the trace, nothing is logged) and answers 409
    "SKU already exists" when the letters s, k, u follow one another
    somewhere in the message of the error, in either case, whatever
    constraint was broken; it answers 400 "Database constraint violation"
    when they do not. The message is ASCII text. *)
Theorem integrity_error_answer
        (b : Backend) (db : Tables) (d : json) (msg : string) (w0 : World) :
  try_block b d (fresh_session db) = (Raise (IntegrityError msg), w0) ->
  is_ascii_text msg = true ->
  let rolled_back :=
    {| stored := db; view := db; objects := []; in_transaction := false;
       log := []; trace := trace w0 ++ [OpRollback] |} in
  (mentions_sku msg ->
   create_product b db d =
     (Ok (error_response "SKU already exists" 409), rolled_back)) /\
  (~ mentions_sku msg ->
   create_product b db d =
     (Ok (error_response "Database constraint violation" 400), rolled_back)).
Proof.
  intros H _ rolled_back.
  destruct (try_block_raise b db d _ w0 H) as (Hs & Hl).
  assert (G : create_product b db d =
              (Ok (if Text.contains "sku" (Text.lower msg)
                   then error_response "SKU already exists" 409
                   else error_response "Database constraint violation" 400),
               rolled_back)).
  { unfold create_product, create_product_m, try_except. rewrite H.
    unfold handle. cbn [is_integrity exn_message].
    cbv beta iota zeta delta [bind ret Db.rollback Db.record_call].
    cbn [stored view objects in_transaction log trace].
    rewrite Hs, Hl.
    destruct (Text.contains "sku" (Text.lower msg)); reflexivity. }
  split; intros Hm; rewrite G.
  - apply contains_sku_iff in Hm. rewrite Hm. reflexivity.
  - rewrite (contains_sku_false _ Hm). reflexivity.
Qed.

(** X15. The same sku twice. With a persistence layer whose message for a
    duplicate sku has the letters sku: after a request that was answered
    201, a second request that passes the four field checks, has a string
    as its name, finds its warehouse and has a sku that differs from the
    first one only in the case of its letters and in the whitespace around
    it, is answered 409 "SKU already exists" after the flush, and changes
    no row. The payloads and the message are ASCII text. *)
Theorem same_sku_twice
        (b1 b2 : Backend) (db : Tables) (d1 d2 : json) (r1 : Response) (w1 : World)
        (sku1 sku2 : string) (wh : Z) :
  create_product b1 db d1 = (Ok r1, w1) ->
  status r1 = 201 ->
  ascii_payload d1 = true ->
  ascii_payload d2 = true ->
  field d1 "sku" = JStr sku1 ->
  field d2 "sku" = JStr sku2 ->
  same_sku sku1 sku2 ->
  validated d2 = true ->
  is_string (field d2 "name") = true ->
  lookup b2 (stored w1) d2 = Ok (Some wh) ->
  outage b2 OpBegin = None ->
  outage b2 OpFlush = None ->
  is_ascii_text (sku_violation b2) = true ->
  mentions_sku (sku_violation b2) ->
  create_product b2 (stored w1) d2 =
    (Ok (error_response "SKU already exists" 409),
     {| stored := stored w1; view := stored w1; objects := [];
        in_transaction := false; log := [];
        trace := [OpGet; OpBegin; OpAdd; OpFlush; OpRollback] |}).
Proof.
  intros E1 S1 _ _ F1 F2 Hsame Hv Hn Hl Hb Hf _ Hm.
  apply contains_sku_iff in Hm.
  apply same_sku_normalize in Hsame. unfold normalize_sku in Hsame.
  destruct (created_sku b1 db d1 r1 w1 E1 S1) as (sku & pid & Fs & _ & Ht).
  assert (sku = sku1) by congruence. subst sku. rewrite Hsame in Ht.
  destruct (validated_inv d2 Hv) as (Htr & Hloop & (price & Hp) & Hq).
  destruct (passes_required_shaped d2 Htr Hloop) as (items & S). use_shape S.
  destruct (lookup_inv b2 (stored w1) d2 _ Hl) as (Ho & Hfw).
  rewrite F2 in *.
  destruct (field d2 "name") eqn:En; try discriminate.
  destruct (create_product b2 (stored w1) d2) as [r w] eqn:E.
  run E. symmetry. exact E.
Qed.

(** ** Further properties of the handler *)

Lemma first_missing_in (d : json) (fields : list string) (f : string) :
  first_missing d fields = Ok (Some f) -> In f fields.
Proof.
  induction fields as [|k rest IH]; cbn [first_missing]; [discriminate|].
  destruct (PyOps.contains k d) as [[|]|e]; try discriminate.
  - destruct (PyOps.getitem d k) as [v|e]; [|discriminate].
    destruct (Py.is_none v).
    + intros [= <-]. left. reflexivity.
    + intros H. right. apply IH, H.
  - intros [= <-]. left. reflexivity.
Qed.

(** X1. Every request is answered, and the answer is one of the responses
    written in the handler: one of the eight fixed error bodies with its
    status, the 400 that names one of the five required fields, or the
    201 with an assigned product_id (never null) and a sku in normal
    form. *)
Theorem response_repertoire (b : Backend) (db : Tables) (d : json) :
  exists r w,
    create_product b db d = (Ok r, w) /\
    (In r fixed_errors \/
     (exists f, In f required_fields /\
                r = error_response ("Missing required field: " ++ f) 400) \/
     (exists pid sku, r = created_response (Some pid) (normalize_sku sku))).
Proof.
  destruct (create_product b db d) as [r w] eqn:E.
  run E; finish E; eexists; eexists; (split; [reflexivity|]).
  all: try (left; unfold fixed_errors; cbn [In]; tauto).
  - right. left. eexists. split; [|reflexivity]. eapply first_missing_in. eassumption.
  - left. match goal with H : check_price _ = inl _ |- _ =>
      destruct (check_price_rejects _ _ H) as [-> | ->] end;
      unfold fixed_errors; cbn [In]; tauto.
  - right. right.
    match goal with H : PyOps.strip ?a = Ok ?s |- context [Text.upper ?s] =>
      destruct (strip_ok_inv _ _ H) as (t & _ & ->) end.
    eexists; eexists. reflexivity.
Qed.

Lemma lookup_intro (b : Backend) (db : Tables) (d : json) (o : option Z) :
  outage b OpGet = None ->
  Db.find_warehouse b (field d "warehouse_id") db = o ->
  lookup b db d = Ok o.
Proof.
  intros Ho Hf.
  unfold lookup, Db.query_get, Db.record_call, Db.check_outage, bind, ret, raise.
  cbn. rewrite Ho. cbn. rewrite Hf. reflexivity.
Qed.

Lemma validated_intro (d : json) (price : Decimal) :
  negb (Py.truthy d) = false ->
  first_missing d required_fields = Ok None ->
  check_price (field d "price") = inr price ->
  bad_quantity (field d "initial_quantity") = false ->
  validated d = true.
Proof.
  intros H1 H2 H3 H4. unfold validated. rewrite H2, H3, H4.
  apply negb_false_iff in H1. rewrite H1. reflexivity.
Qed.

(** Turns what a run recorded about [d[k]] into facts about [field d k]. *)
Ltac to_fields :=
  repeat match goal with
         | H : PyOps.getitem ?d ?k = Ok ?v |- _ =>
             apply field_getitem in H; try subst v
         end;
  repeat match goal with
         | H : PyOps.strip ?a = Ok ?s |- _ =>
             let t := fresh "t" in
             let E := fresh "E" in
             destruct (strip_ok_inv _ _ H) as (t & E & ->); clear H
         end.

(** X2. To a payload whose name, sku and price are ASCII text, a 201 is
    answered only when the payload passed the four field checks, its name
    and sku are strings, the lookup found the warehouse and the
    normalised sku was not stored yet; then the response carries
    the id of the new Product and the normalised sku, the committed rows
    are the rows from before plus that Product (trimmed name, normalised
    sku, parsed price, the payload's warehouse_id) and its Inventory (the
    Product's id, the payload's warehouse_id and initial_quantity), the
    calls were get, begin, add, flush, add, commit, and nothing was
    logged. *)
Theorem created_only_if (b : Backend) (db : Tables) (d : json) (r : Response) (w : World) :
  ascii_payload d = true ->
  create_product b db d = (Ok r, w) ->
  status r = 201 ->
  exists name sku price wh,
    validated d = true /\
    field d "name" = JStr name /\
    field d "sku" = JStr sku /\
    check_price (field d "price") = inr price /\
    lookup b db d = Ok (Some wh) /\
    Db.sku_taken (normalize_sku sku) db = false /\
    let product := {| p_id := Some (Db.next_id (map p_id (products db)));
                      p_name := Text.strip name;
                      p_sku := normalize_sku sku;
                      p_price := price;
                      p_warehouse_id := field d "warehouse_id" |} in
    let inventory := {| i_id := Some (Db.next_id (map i_id (inventories db)));
                        i_product_id := p_id product;
                        i_warehouse_id := field d "warehouse_id";
                        i_quantity := field d "initial_quantity" |} in
    r = created_response (p_id product) (normalize_sku sku) /\
    stored w = {| warehouses := warehouses db;
                  products := products db ++ [product];
                  inventories := inventories db ++ [inventory] |} /\
    trace w = call_sequence /\
    log w = [].
Proof.
  intros _ E Hs.
  run E; injection E as <- <-; cbn [status error_response] in Hs; try discriminate.
  - exfalso. erewrite check_price_status in Hs by eassumption. discriminate.
  - to_fields.
    match goal with
    | Hn : field d "name" = JStr ?n, Hk : field d "sku" = JStr ?k,
      Hp : check_price _ = inr ?p, Hw : Db.find_warehouse _ _ _ = Some ?z |- _ =>
        exists n, k, p, z
    end.
    repeat split; try assumption; try reflexivity.
    + eapply validated_intro; eassumption.
    + apply lookup_intro; assumption.
Qed.

(** X3. The quantity check, for a payload that passed the checks before
    it: an initial_quantity that is a non-negative [int] or a [bool] is
    never answered with the quantity error; every other value (a negative
    integer, a float even when integral, a string, an array, a mapping)
    is answered 400 "Initial quantity must be non-negative integer" before
    any call to the persistence layer. *)
Theorem quantity_check (b : Backend) (db : Tables) (d : json) (price : Decimal) :
  Py.truthy d = true ->
  first_missing d required_fields = Ok None ->
  check_price (field d "price") = inr price ->
  let q := field d "initial_quantity" in
  ((exists z, q = JInt z /\ 0 <= z) \/ (exists x, q = JBool x) ->
   fst (create_product b db d) <>
     Ok (error_response "Initial quantity must be non-negative integer" 400)) /\
  (~ ((exists z, q = JInt z /\ 0 <= z) \/ (exists x, q = JBool x)) ->
   create_product b db d =
     (Ok (error_response "Initial quantity must be non-negative integer" 400),
      fresh_session db)).
Proof.
  intros Ht Hl Hp q. split.
  - intros Hq. apply bad_quantity_spec in Hq. subst q.
    destruct (passes_required_shaped d Ht Hl) as (items & S). use_shape S.
    destruct (create_product b db d) as [r w] eqn:E.
    run E; finish E; cbn [fst]; unfold error_response, created_response; intros H; discriminate H.
  - intros Hq. subst q. apply quantity_rejected with (price := price); try assumption.
    destruct (bad_quantity (field d "initial_quantity")) eqn:Eb; [reflexivity|].
    exfalso. apply Hq. apply bad_quantity_spec. exact Eb.
Qed.

(** X5. A payload that is not a mapping never creates anything: the rows
    are the rows from before, and the answer is "No JSON data provided"
    (empty value), "Missing required field: name" (an array or a string in
    which name does not occur), or 500 after a rollback and one line in
    the log (a number, [true], an array or a string holding name); the
    persistence layer is not called otherwise. *)
Theorem non_mapping_payload (b : Backend) (db : Tables) (d : json) :
  (forall items, d <> JObj items) ->
  exists r w,
    create_product b db d = (Ok r, w) /\
    stored w = db /\ view w = db /\
    ((r = error_response "No JSON data provided" 400 /\ trace w = [] /\ log w = []) \/
     (r = error_response "Missing required field: name" 400 /\ trace w = [] /\ log w = []) \/
     (r = error_response "Internal server error" 500 /\ trace w = [OpRollback] /\
      exists msg, log w = ["Error creating product: " ++ msg])).
Proof.
  intros Hd.
  destruct (create_product b db d) as [r w] eqn:E.
  exec_in E.
  destruct (negb (Py.truthy d)) eqn:Et.
  - finish E. eexists; eexists. split; [reflexivity|]. cbn. auto 10.
  - destruct d as [ | x | z | f | s | l | items]; try discriminate Et;
      unfold required_fields in E; cbn [first_missing PyOps.contains PyOps.getitem] in E.
    + exec_in E. finish E. eexists; eexists. split; [reflexivity|]. cbn. eauto 10.
    + exec_in E. finish E. eexists; eexists. split; [reflexivity|]. cbn. eauto 10.
    + exec_in E. finish E. eexists; eexists. split; [reflexivity|]. cbn. eauto 10.
    + destruct (Text.contains "name" s); exec_in E; finish E;
        eexists; eexists; (split; [reflexivity|]); cbn; eauto 10.
    + destruct (existsb (Py.is_str "name") l); exec_in E; finish E;
        eexists; eexists; (split; [reflexivity|]); cbn; eauto 10.
    + exfalso. eapply Hd. reflexivity.
Qed.

(** X10. The calls to the persistence layer always come in the order get,
    begin, add, flush, add, commit: the calls of a request are a prefix of
    that sequence, followed by a rollback or not. The whole sequence with
    no rollback after it is made exactly when the answer is 201. When the
    handler returns, the session sees the committed rows and no others. *)
Theorem call_order (b : Backend) (db : Tables) (d : json) :
  exists r w,
    create_product b db d = (Ok r, w) /\
    (exists n, trace w = firstn n call_sequence \/
               trace w = (firstn n call_sequence ++ [OpRollback])%list) /\
    (status r = 201 <-> trace w = call_sequence) /\
    view w = stored w.
Proof.
  destruct (create_product b db d) as [r w] eqn:E.
  run E; finish E; eexists; eexists; (split; [reflexivity|]);
    cbn [trace view stored status error_response created_response app];
    (split; [|split; [|reflexivity]]).
  all: try (split; intros H; discriminate H).
  all: try (first [ exists 0%nat; cbn; auto; fail | exists 1%nat; cbn; auto; fail
                  | exists 2%nat; cbn; auto; fail | exists 3%nat; cbn; auto; fail
                  | exists 4%nat; cbn; auto; fail | exists 5%nat; cbn; auto; fail
                  | exists 6%nat; cbn; auto; fail ]).
  - erewrite check_price_status by eassumption. split; intros H; discriminate H.
  - split; reflexivity.
Qed.

(** X11. The handler writes to the server log exactly when it answers 500
    "Internal server error", and then one line "Error creating product: "
    followed by the message of the exception; validation errors, 404,
    409 and the 400 of a constraint violation are not logged. *)
Theorem logging_only_on_500 (b : Backend) (db : Tables) (d : json) :
  exists r w,
    create_product b db d = (Ok r, w) /\
    ((status r <> 500 /\ log w = []) \/
     (r = error_response "Internal server error" 500 /\
      exists msg, log w = ["Error creating product: " ++ msg])).
Proof.
  destruct (create_product b db d) as [r w] eqn:E.
  run E; finish E; eexists; eexists; (split; [reflexivity|]);
    cbn [log status error_response created_response app].
  all: try (left; split; [discriminate|reflexivity]).
  all: try (right; split; [reflexivity|eexists; reflexivity]).
  left. split; [|reflexivity]. erewrite check_price_status by eassumption. discriminate.
Qed.

(** X7. A 404 is answered only when the payload passed the four field
    checks and the lookup of its warehouse_id answered that there is no
    such warehouse; the lookup was the only call and nothing changed. *)
Theorem not_found_only_if (b : Backend) (db : Tables) (d : json) (r : Response) (w : World) :
  create_product b db d = (Ok r, w) ->
  status r = 404 ->
  validated d = true /\ lookup b db d = Ok None /\
  r = error_response "Warehouse not found" 404 /\
  w = {| stored := db; view := db; objects := []; in_transaction := false;
         log := []; trace := [OpGet] |}.
Proof.
  intros E Hs.
  run E; injection E as <- <-; cbn [status error_response created_response] in Hs;
    try discriminate.
  - exfalso. erewrite check_price_status in Hs by eassumption. discriminate.
  - to_fields. repeat split.
    + eapply validated_intro; eassumption.
    + apply lookup_intro; assumption.
Qed.

(** X6. A mapping that fails one of the four field checks is always
    answered 400, never 500, with no call to the persistence layer and
    nothing logged. *)
Theorem mapping_validation_failure (b : Backend) (db : Tables) (items : list (string * json)) :
  validated (JObj items) = false ->
  exists msg,
    create_product b db (JObj items) =
      (Ok (error_response msg 400), fresh_session db).
Proof.
  intros Hv.
  destruct (create_product b db (JObj items)) as [r w] eqn:E.
  exec_in E.
  destruct (negb (Py.truthy (JObj items))) eqn:Et.
  { finish E. eexists. reflexivity. }
  rewrite first_missing_dict in E.
  destruct (find (absent_or_null items) required_fields) as [f|] eqn:Ef.
  { exec_in E. finish E. eexists. reflexivity. }
  assert (Hl : first_missing (JObj items) required_fields = Ok None).
  { rewrite first_missing_dict, Ef. reflexivity. }
  assert (Ht : Py.truthy (JObj items) = true).
  { apply negb_false_iff. exact Et. }
  destruct (passes_required_shaped _ Ht Hl) as (items' & S). use_shape S.
  run E; try (finish E; eexists; reflexivity).
  all: try (match goal with H : check_price _ = inl _ |- _ =>
              finish E; destruct (check_price_rejects _ _ H) as [-> | ->];
              eexists; reflexivity end).
  all: exfalso;
    match goal with Hp : check_price _ = inr ?p |- _ =>
      rewrite (validated_intro _ p) in Hv; [discriminate|assumption..] end.
Qed.

Lemma sku_not_taken (s : string) (t : Tables) :
  Db.sku_taken s t = false -> ~ In s (map p_sku (products t)).
Proof.
  unfold Db.sku_taken. intros H Hin.
  apply in_map_iff in Hin as (p & Hp & Hin).
  assert (existsb (fun p => String.eqb (p_sku p) s) (products t) = true).
  { apply existsb_exists. exists p. split; [exact Hin|]. rewrite Hp. apply String.eqb_refl. }
  congruence.
Qed.

Lemma NoDup_snoc {A} (l : list A) (x : A) :
  NoDup l -> ~ In x l -> NoDup (l ++ [x]).
Proof.
  induction l as [|a l IH]; cbn; intros Hn Hx.
  - constructor; [intros []|constructor].
  - inversion Hn as [|? ? Ha Hl]; subst. constructor.
    + rewrite in_app_iff. cbn. intros [H | [H | []]]; [auto|]. apply Hx. left. symmetry. exact H.
    + apply IH; [exact Hl|]. intros H. apply Hx. right. exact H.
Qed.

Lemma normalize_sku_idempotent (s : string) :
  normalize_sku (normalize_sku s) = normalize_sku s.
Proof.
  unfold normalize_sku. rewrite strip_upper, strip_idempotent. apply upper_idempotent.
Qed.

(** X13. With the uniqueness of sku enforced when a Product is written,
    no request breaks the two invariants of the stored skus: if they were
    pairwise distinct before the request they are after it, and if each
    was in normal form (trimmed, upper case) before, each is after. *)
Theorem stored_skus_invariant (b : Backend) (db : Tables) (d : json) :
  let w := snd (create_product b db d) in
  (skus_distinct db -> skus_distinct (stored w)) /\
  (skus_normalized db -> skus_normalized (stored w)).
Proof.
  intros w. subst w.
  destruct (create_product b db d) as [r w] eqn:E.
  run E; finish E; cbn [snd stored]; (split; [|]); try (intros H; exact H).
  - unfold skus_distinct. cbn [products]. intros H.
    rewrite map_app. cbn [map p_sku].
    apply NoDup_snoc; [exact H|]. apply sku_not_taken. assumption.
  - unfold skus_normalized. cbn [products]. intros H.
    apply Forall_app. split; [exact H|]. constructor; [|constructor].
    cbn [p_sku]. to_fields. apply normalize_sku_idempotent.
Qed.

(** ** Prices that are no numbers *)

Lemma rstrip_head (c : ascii) (r : string) :
  Text.is_space c = false -> exists r', Text.rstrip (String c r) = String c r'.
Proof.
  intros H. cbn [Text.rstrip]. destruct (Text.rstrip r).
  - rewrite H. eauto.
  - eauto.
Qed.

(** Text that opens with a bracket or a brace is no decimal. *)
Lemma decimal_rejects_bracket (c : ascii) (r : string) :
  c = "["%char \/ c = "{"%char -> Dec.of_string (String c r) = None.
Proof.
  intros Hc. unfold Dec.of_string, Text.strip.
  assert (Hs : Text.is_space c = false) by (destruct Hc as [-> | ->]; reflexivity).
  cbn [Text.lstrip]. rewrite Hs.
  destruct (rstrip_head c r Hs) as (r' & ->).
  destruct Hc as [-> | ->]; reflexivity.
Qed.

Lemma check_price_wrong_type (v : json) :
  price_of_wrong_type v = true ->
  check_price v = inl (error_response "Invalid price format" 400).
Proof.
  unfold check_price.
  destruct v as [ | [|] | z | f | s | l | items]; try discriminate; intros _.
  - reflexivity.
  - reflexivity.
  - cbn [Py.str Py.repr append]. rewrite decimal_rejects_bracket by auto. reflexivity.
  - cbn [Py.str Py.repr append]. rewrite decimal_rejects_bracket by auto. reflexivity.
Qed.

Lemma price_rejected (b : Backend) (db : Tables) (d : json) (r : Response) :
  Py.truthy d = true ->
  first_missing d required_fields = Ok None ->
  check_price (field d "price") = inl r ->
  create_product b db d = (Ok r, fresh_session db).
Proof.
  intros Ht Hl Hr.
  destruct (passes_required_shaped d Ht Hl) as (items & S). use_shape S.
  destruct (create_product b db d) as [r0 w] eqn:E.
  run E. symmetry; exact E.
Qed.

(** X4. Prices by their JSON type, for a payload that passed the presence
    and required-field checks: a boolean, an array or a mapping is
    answered 400 "Invalid price format"; a negative integer is answered
    400 "Price cannot be negative"; a non-negative integer is answered
    with neither of the two price errors. *)
Theorem price_by_type (b : Backend) (db : Tables) (d : json) :
  Py.truthy d = true ->
  first_missing d required_fields = Ok None ->
  (price_of_wrong_type (field d "price") = true ->
   create_product b db d =
     (Ok (error_response "Invalid price format" 400), fresh_session db)) /\
  (forall z, field d "price" = JInt z -> z < 0 ->
   create_product b db d =
     (Ok (error_response "Price cannot be negative" 400), fresh_session db)) /\
  (forall z, field d "price" = JInt z -> 0 <= z ->
   fst (create_product b db d) <> Ok (error_response "Invalid price format" 400) /\
   fst (create_product b db d) <> Ok (error_response "Price cannot be negative" 400)).
Proof.
  intros Ht Hl.
  assert (P : forall z, field d "price" = JInt z -> 0 <= z ->
                forall msg,
                  msg = "Invalid price format" \/ msg = "Price cannot be negative" ->
                  fst (create_product b db d) <> Ok (error_response msg 400)).
  { intros z Hz Hpos msg Hmsg.
    assert (Hp : check_price (field d "price") = inr (DNum false (Z.abs_N z) 0)).
    { rewrite Hz, check_price_int. apply Z.ltb_ge in Hpos. rewrite Hpos. reflexivity. }
    destruct (passes_required_shaped d Ht Hl) as (items & S). use_shape S.
    destruct (create_product b db d) as [r w] eqn:E.
    run E; finish E; cbn [fst]; unfold error_response, created_response;
      destruct Hmsg as [-> | ->]; intros G; discriminate G. }
  split; [|split].
  - intros H. apply price_rejected; [assumption..|]. apply check_price_wrong_type, H.
  - intros z Hz Hneg. apply price_rejected; [assumption..|].
    rewrite Hz, check_price_int. apply Z.ltb_lt in Hneg. rewrite Hneg. reflexivity.
  - intros z Hz Hpos. split; apply (P z Hz Hpos); auto.
Qed.

(** ** Where an integrity error can come from *)

Lemma getitem_raises (d : json) (k : string) (e : exn) :
  PyOps.getitem d k = Raise e -> is_integrity e = false.
Proof.
  destruct d; cbn; try (intros [= <-]; reflexivity).
  destruct (Py.dict_get k items); [discriminate|]. intros [= <-]. reflexivity.
Qed.

Lemma contains_raises (d : json) (k : string) (e : exn) :
  PyOps.contains k d = Raise e -> is_integrity e = false.
Proof. destruct d; cbn; try discriminate; intros [= <-]; reflexivity. Qed.

Lemma first_missing_raises (d : json) (fields : list string) (e : exn) :
  first_missing d fields = Raise e -> is_integrity e = false.
Proof.
  induction fields as [|k rest IH]; cbn [first_missing]; [discriminate|].
  destruct (PyOps.contains k d) as [[|]|e'] eqn:Ec.
  - destruct (PyOps.getitem d k) as [v|e'] eqn:Eg.
    + destruct (Py.is_none v); [discriminate|exact IH].
    + intros [= <-]. eapply getitem_raises, Eg.
  - discriminate.
  - intros [= <-]. eapply contains_raises, Ec.
Qed.

Lemma strip_raises (v : json) (e : exn) :
  PyOps.strip v = Raise e -> is_integrity e = false.
Proof. destruct v; cbn; try discriminate; intros [= <-]; reflexivity. Qed.

Ltac no_integrity :=
  match goal with
  | H : is_integrity ?e = true, G : PyOps.getitem _ _ = Raise ?e |- _ =>
      rewrite (getitem_raises _ _ _ G) in H; discriminate H
  | H : is_integrity ?e = true, G : first_missing _ _ = Raise ?e |- _ =>
      rewrite (first_missing_raises _ _ _ G) in H; discriminate H
  | H : is_integrity ?e = true, G : PyOps.strip _ = Raise ?e |- _ =>
      rewrite (strip_raises _ _ G) in H; discriminate H
  end.

(** X8. "SKU already exists" (409) and "Database constraint violation"
    (400) are answered only to a payload that passed the four field
    checks, with a warehouse that was found and a name and sku that are
    strings, after the flush or the commit was called; the transaction was
    rolled back, the rows are the rows from before and nothing was
    logged. *)
Theorem constraint_error_only_if
        (b : Backend) (db : Tables) (d : json) (r : Response) (w : World) :
  create_product b db d = (Ok r, w) ->
  r = error_response "SKU already exists" 409 \/
  r = error_response "Database constraint violation" 400 ->
  validated d = true /\
  (exists wh, lookup b db d = Ok (Some wh)) /\
  is_string (field d "name") = true /\
  is_string (field d "sku") = true /\
  stored w = db /\ view w = db /\ log w = [] /\
  (trace w = [OpGet; OpBegin; OpAdd; OpFlush; OpRollback] \/
   trace w = [OpGet; OpBegin; OpAdd; OpFlush; OpAdd; OpCommit; OpRollback]).
Proof.
  intros E Hr.
  run E; injection E as <- <-; try no_integrity;
    try (destruct Hr as [Hr | Hr]; discriminate Hr).
  all: try (exfalso; match goal with H : check_price _ = inl _ |- _ =>
              destruct (check_price_rejects _ _ H) as [-> | ->];
              destruct Hr as [Hr | Hr]; discriminate Hr end).
  all: to_fields; cbn [stored view log trace];
    repeat match goal with H : field _ _ = JStr _ |- _ => rewrite H end;
    repeat split; try reflexivity; auto;
    try (eapply validated_intro; eassumption);
    try (eexists; apply lookup_intro; eassumption).
Qed.

Lemma strip_raise_not_string (v : json) (e : exn) :
  PyOps.strip v = Raise e -> is_string v = false.
Proof. destruct v; cbn; try discriminate; reflexivity. Qed.

(** X9. A payload that is a mapping is answered 500 only after it passed
    the four field checks, and only when a call to the persistence layer
    failed in this request or its name or sku is not a string. In the
    first case the call that failed is the last one before the rollback,
    the calls before it are the ones of a request that succeeds, and the
    line logged carries the message of the failure; in the second case
    the calls were get, begin and rollback. *)
Theorem server_error_only_if
        (b : Backend) (db : Tables) (items : list (string * json))
        (r : Response) (w : World) :
  create_product b db (JObj items) = (Ok r, w) ->
  status r = 500 ->
  validated (JObj items) = true /\
  ((exists op msg,
       outage b op = Some msg /\
       trace w = (calls_until op ++ [OpRollback])%list /\
       log w = ["Error creating product: " ++ msg]) \/
   (is_string (field (JObj items) "name") && is_string (field (JObj items) "sku") = false /\
    trace w = [OpGet; OpBegin; OpRollback])).
Proof.
  intros E Hs.
  exec_in E.
  destruct (negb (Py.truthy (JObj items))) eqn:Et.
  { finish E. discriminate Hs. }
  rewrite first_missing_dict in E.
  destruct (find (absent_or_null items) required_fields) as [f|] eqn:Ef.
  { exec_in E. finish E. discriminate Hs. }
  assert (Hl : first_missing (JObj items) required_fields = Ok None).
  { rewrite first_missing_dict, Ef. reflexivity. }
  assert (Ht : Py.truthy (JObj items) = true).
  { apply negb_false_iff. exact Et. }
  destruct (passes_required_shaped _ Ht Hl) as (items' & S). use_shape S.
  run E; injection E as <- <-; cbn [status error_response created_response] in Hs;
    try discriminate Hs.
  all: try (exfalso; erewrite check_price_status in Hs by eassumption; discriminate Hs).
  all: split; [eapply validated_intro; eassumption|].
  all: try (left; match goal with H : outage _ ?op = Some ?m |- _ =>
              exists op, m; split; [exact H|split; reflexivity] end).
  all: right; split; [|reflexivity];
    repeat match goal with H : PyOps.strip _ = Raise _ |- _ =>
             apply strip_raise_not_string in H; rewrite H end;
    rewrite ?andb_false_r; reflexivity.
Qed.

(** ** The further properties at sample requests *)

Lemma normalize_sku_canonical_witness :
  normalize_sku (" " ++ "abc-1" ++ "  ") = normalize_sku "abc-1" /\
  normalize_sku "Abc-1" = normalize_sku "aBC-1".
Proof.
  destruct normalize_sku_canonical as (_ & Hpad & Hcase). split.
  - apply Hpad; reflexivity.
  - apply Hcase. reflexivity.
Defined.

Lemma created_only_if_witness :
  validated widget_payload = true /\
  Db.sku_taken (normalize_sku " abc-1 ") one_warehouse = false.
Proof.
  destruct (created_only_if quiet_backend one_warehouse widget_payload
              (created_response (Some 1) "ABC-1")
              (snd (create_product quiet_backend one_warehouse widget_payload)))
    as (name & sku & price & wh & Hv & Hn & Hs & Hp & Hl & Ht & _).
  - reflexivity.
  - vm_compute. reflexivity.
  - reflexivity.
  - split; [exact Hv|].
    assert (E : sku = " abc-1 ").
    { assert (G : field widget_payload "sku" = JStr " abc-1 ") by reflexivity.
      congruence. }
    rewrite <- E. exact Ht.
Defined.

Lemma quantity_check_witness :
  create_product quiet_backend one_warehouse fractional_quantity_payload =
    (Ok (error_response "Initial quantity must be non-negative integer" 400),
     fresh_session one_warehouse).
Proof.
  apply (proj2 (quantity_check quiet_backend one_warehouse fractional_quantity_payload
                  (DNum false 999 (-2)) eq_refl eq_refl eq_refl)).
  intros [(z & H & _) | (x & H)]; discriminate H.
Defined.

Lemma price_by_type_witness :
  create_product quiet_backend one_warehouse array_price_payload =
    (Ok (error_response "Invalid price format" 400), fresh_session one_warehouse) /\
  create_product quiet_backend one_warehouse negative_price_payload =
    (Ok (error_response "Price cannot be negative" 400), fresh_session one_warehouse).
Proof.
  split.
  - apply (proj1 (price_by_type quiet_backend one_warehouse array_price_payload
                    eq_refl eq_refl)).
    reflexivity.
  - apply (proj1 (proj2 (price_by_type quiet_backend one_warehouse negative_price_payload
                           eq_refl eq_refl)) (-5)); [reflexivity|lia].
Defined.

Lemma non_mapping_payload_witness :
  stored (snd (create_product quiet_backend one_warehouse (JArr [JInt 1]))) = one_warehouse.
Proof.
  destruct (non_mapping_payload quiet_backend one_warehouse (JArr [JInt 1]))
    as (r & w & E & Hs & _).
  - discriminate.
  - rewrite E. exact Hs.
Defined.

Lemma mapping_validation_failure_witness :
  exists msg,
    create_product quiet_backend one_warehouse (JObj two_missing_items) =
      (Ok (error_response msg 400), fresh_session one_warehouse).
Proof.
  apply (mapping_validation_failure quiet_backend one_warehouse two_missing_items).
  reflexivity.
Defined.

Lemma not_found_only_if_witness :
  validated unknown_warehouse_payload = true /\
  lookup quiet_backend one_warehouse unknown_warehouse_payload = Ok None.
Proof.
  destruct (not_found_only_if quiet_backend one_warehouse unknown_warehouse_payload
              (error_response "Warehouse not found" 404)
              (snd (create_product quiet_backend one_warehouse unknown_warehouse_payload)))
    as (Hv & Hl & _).
  - vm_compute. reflexivity.
  - reflexivity.
  - split; assumption.
Defined.

Lemma constraint_error_only_if_witness :
  validated widget_payload = true /\
  stored (snd (create_product quiet_backend widget_stored widget_payload)) = widget_stored.
Proof.
  destruct (constraint_error_only_if quiet_backend widget_stored widget_payload
              (error_response "SKU already exists" 409)
              (snd (create_product quiet_backend widget_stored widget_payload)))
    as (Hv & _ & _ & _ & Hs & _).
  - vm_compute. reflexivity.
  - left. reflexivity.
  - split; assumption.
Defined.

Lemma server_error_only_if_witness :
  validated widget_payload = true /\
  exists op msg,
    outage failing_commit op = Some msg /\
    trace (snd (create_product failing_commit one_warehouse widget_payload)) =
      (calls_until op ++ [OpRollback])%list /\
    log (snd (create_product failing_commit one_warehouse widget_payload)) =
      ["Error creating product: " ++ msg].
Proof.
  destruct (server_error_only_if failing_commit one_warehouse widget_items
              (error_response "Internal server error" 500)
              (snd (create_product failing_commit one_warehouse widget_payload)))
    as (Hv & [H | (H & _)]).
  - vm_compute. reflexivity.
  - reflexivity.
  - split; [exact Hv|exact H].
  - discriminate H.
Defined.

Lemma stored_skus_invariant_witness :
  skus_distinct widget_stored /\ skus_normalized widget_stored.
Proof.
  destruct (stored_skus_invariant quiet_backend one_warehouse widget_payload) as (Hd & Hn).
  split.
  - apply Hd. constructor.
  - apply Hn. constructor.
Defined.

(** A duplicate sku is answered 409; an Inventory that breaks a check
    constraint, whose message has no sku in it, is answered 400. *)
Lemma integrity_error_answer_witness :
  create_product quiet_backend widget_stored widget_payload =
    (Ok (error_response "SKU already exists" 409),
     {| stored := widget_stored; view := widget_stored; objects := [];
        in_transaction := false; log := [];
        trace := [OpGet; OpBegin; OpAdd; OpFlush; OpRollback] |}) /\
  create_product check_constraint_backend one_warehouse widget_payload =
    (Ok (error_response "Database constraint violation" 400),
     {| stored := one_warehouse; view := one_warehouse; objects := [];
        in_transaction := false; log := [];
        trace := [OpGet; OpBegin; OpAdd; OpFlush; OpAdd; OpCommit; OpRollback] |}).
Proof.
  split.
  - rewrite (proj1 (integrity_error_answer quiet_backend widget_stored widget_payload
               "UNIQUE constraint failed: product.sku"
               (snd (try_block quiet_backend widget_payload (fresh_session widget_stored)))
               ltac:(vm_compute; reflexivity) eq_refl)).
    + reflexivity.
    + exists "UNIQUE constraint failed: product.", "s"%char, "k"%char, "u"%char, "".
      split; reflexivity.
  - rewrite (proj2 (integrity_error_answer check_constraint_backend one_warehouse
               widget_payload
               "(sqlite3.IntegrityError) CHECK constraint failed: stock_limit [SQL: INSERT INTO inventory (product_id, warehouse_id, quantity) VALUES (?, ?, ?)]"
               (snd (try_block check_constraint_backend widget_payload
                       (fresh_session one_warehouse)))
               ltac:(vm_compute; reflexivity) eq_refl)).
    + reflexivity.
    + intros Hm. apply contains_sku_iff in Hm. vm_compute in Hm. discriminate Hm.
Defined.

(** The sku " abc-1 " is accepted, then "ABC-1  " is refused. *)
Lemma same_sku_twice_witness :
  fst (create_product quiet_backend one_warehouse widget_payload) =
    Ok (created_response (Some 1) "ABC-1") /\
  create_product quiet_backend widget_stored same_sku_payload =
    (Ok (error_response "SKU already exists" 409),
     {| stored := widget_stored; view := widget_stored; objects := [];
        in_transaction := false; log := [];
        trace := [OpGet; OpBegin; OpAdd; OpFlush; OpRollback] |}).
Proof.
  split; [vm_compute; reflexivity|].
  apply (same_sku_twice quiet_backend quiet_backend one_warehouse
           widget_payload same_sku_payload (created_response (Some 1) "ABC-1")
           (snd (create_product quiet_backend one_warehouse widget_payload))
           " abc-1 " "ABC-1  " 1); try (vm_compute; reflexivity).
  - exists " ", "abc-1", " ", "", "ABC-1", "  ". repeat split; reflexivity.
  - exists "UNIQUE constraint failed: product.", "s"%char, "k"%char, "u"%char, "".
    split; reflexivity.
Defined.
